(** * Room projection of the Matrix chat manager (matrix-bot.py)

    A shallow embedding of [MatrixChatManager]: the values the client reads
    out of parsed JSON, the state-event fold and the reverse timeline scan of
    [get_user_chats], the member roster of [get_room_members], and the
    session handling of [sync], [login] and [logout] over an explicit
    manager state and a log of the requests sent to the homeserver.

    Console output ([print]) is modelled as far as it can raise: printing
    a str that holds a lone surrogate, which [json.loads] lets through,
    raises [UnicodeEncodeError].  [get_room_info], which none of the other
    methods calls, is left out. *)

From Stdlib Require Import String Ascii DecimalString ZArith NArith Bool Arith
  Lia List.
Import ListNotations.

Set Warnings "-register-all".

(** ** Python values *)

(** A Python [str] is a sequence of Unicode code points; [len] and slicing
    count code points. *)
Definition pystr := list N.

(** An ASCII literal of the source as a [pystr]. *)
Definition lit (s : string) : pystr :=
  map N_of_ascii (list_ascii_of_string s).

(** What [json.loads] (behind [response.json()]) can produce.  A [dict] keeps
    insertion order; it is represented by its items, looked up by the first
    matching key.  Numbers are kept as integers: the client only ever tests
    them for truthiness. *)
Inductive value : Type :=
| VNone
| VBool (b : bool)
| VInt (z : Z)
| VStr (s : pystr)
| VList (l : list value)
| VDict (d : list (pystr * value)).

Definition dict := list (pystr * value).

(** Outcome of an expression that may raise. *)
Inductive res (A : Type) : Type :=
| Ok (a : A)
| Raise.
Arguments Ok {A} a.
Arguments Raise {A}.

Definition rbind {A B} (m : res A) (k : A -> res B) : res B :=
  match m with
  | Ok a => k a
  | Raise => Raise
  end.

Declare Scope res_scope.
Delimit Scope res_scope with res.
Notation "x <- m ;; k" := (rbind m (fun x => k))
  (at level 61, m at next level, right associativity) : res_scope.
Open Scope res_scope.

Module Py.

Fixpoint str_eqb (a b : pystr) : bool :=
  match a, b with
  | [], [] => true
  | x :: a', y :: b' => N.eqb x y && str_eqb a' b'
  | _, _ => false
  end.

(** [v == s] for a [str] literal [s]. *)
Definition is_str (v : value) (s : pystr) : bool :=
  match v with
  | VStr s' => str_eqb s' s
  | _ => false
  end.

(** [bool(v)] *)
Definition truthy (v : value) : bool :=
  match v with
  | VNone => false
  | VBool b => b
  | VInt z => negb (Z.eqb z 0)
  | VStr s => negb (Nat.eqb (length s) 0)
  | VList l => negb (Nat.eqb (length l) 0)
  | VDict d => negb (Nat.eqb (length d) 0)
  end.

Fixpoint lookup (d : dict) (k : pystr) : option value :=
  match d with
  | [] => None
  | (k', v) :: d' => if str_eqb k' k then Some v else lookup d' k
  end.

(** [d.get(k, dflt)] on a dict. *)
Definition dict_get (d : dict) (k : pystr) (dflt : value) : value :=
  match lookup d k with
  | Some v => v
  | None => dflt
  end.

(** [o.get(k, dflt)]: only a dict has the method, anything else raises
    [AttributeError]. *)
Definition get (o : value) (k : pystr) (dflt : value) : res value :=
  match o with
  | VDict d => Ok (dict_get d k dflt)
  | _ => Raise
  end.

Fixpoint starts_with (p s : pystr) : bool :=
  match p, s with
  | [], _ => true
  | x :: p', y :: s' => N.eqb x y && starts_with p' s'
  | _ :: _, [] => false
  end.

Fixpoint substring (p s : pystr) : bool :=
  starts_with p s ||
  match s with
  | [] => false
  | _ :: s' => substring p s'
  end.

(** [k in c] for a [str] [k]: key test on a dict, substring test on a str,
    membership on a list, [TypeError] otherwise. *)
Definition contains (k : pystr) (c : value) : res bool :=
  match c with
  | VDict d => Ok (match lookup d k with Some _ => true | None => false end)
  | VStr s => Ok (substring k s)
  | VList l => Ok (existsb (fun v => is_str v k) l)
  | _ => Raise
  end.

(** [c[k]] for a [str] [k]: [KeyError] on a dict without the key,
    [TypeError] on everything that is not a dict. *)
Definition getitem (c : value) (k : pystr) : res value :=
  match c with
  | VDict d => match lookup d k with Some v => Ok v | None => Raise end
  | _ => Raise
  end.

(** [len(v)] *)
Definition len (v : value) : res nat :=
  match v with
  | VStr s => Ok (length s)
  | VList l => Ok (length l)
  | VDict d => Ok (length d)
  | _ => Raise
  end.

(** The elements a [for] loop visits. *)
Definition iter (v : value) : res (list value) :=
  match v with
  | VList l => Ok l
  | VDict d => Ok (map (fun kv => VStr (fst kv)) d)
  | VStr s => Ok (map (fun c => VStr [c]) s)
  | _ => Raise
  end.

(** [reversed(v)] *)
Definition reversed (v : value) : res (list value) :=
  l <- iter v ;; Ok (rev l).

(** [d.items()] *)
Definition items (v : value) : res (list (pystr * value)) :=
  match v with
  | VDict d => Ok d
  | _ => Raise
  end.

End Py.

(** ** The literals of [get_user_chats] *)

(** "Без названия" *)
Definition no_name : pystr :=
  [1041; 1077; 1079; 32; 1085; 1072; 1079; 1074; 1072; 1085; 1080; 1103]%N.
(** "Нет описания" *)
Definition no_topic : pystr :=
  [1053; 1077; 1090; 32; 1086; 1087; 1080; 1089; 1072; 1085; 1080; 1103]%N.
(** "Нет алиаса" *)
Definition no_alias : pystr :=
  [1053; 1077; 1090; 32; 1072; 1083; 1080; 1072; 1089; 1072]%N.
(** "Нет сообщений" *)
Definition no_messages : pystr :=
  [1053; 1077; 1090; 32; 1089; 1086; 1086; 1073; 1097; 1077; 1085; 1080;
   1081]%N.

Definition k_type : pystr := Eval cbv in lit "type".
Definition k_content : pystr := Eval cbv in lit "content".
Definition k_name : pystr := Eval cbv in lit "name".
Definition k_topic : pystr := Eval cbv in lit "topic".
Definition k_alias : pystr := Eval cbv in lit "alias".
Definition k_body : pystr := Eval cbv in lit "body".
Definition k_state : pystr := Eval cbv in lit "state".
Definition k_timeline : pystr := Eval cbv in lit "timeline".
Definition k_events : pystr := Eval cbv in lit "events".
Definition k_rooms : pystr := Eval cbv in lit "rooms".
Definition k_join : pystr := Eval cbv in lit "join".
Definition k_chunk : pystr := Eval cbv in lit "chunk".
Definition k_displayname : pystr := Eval cbv in lit "displayname".
Definition k_state_key : pystr := Eval cbv in lit "state_key".
Definition k_access_token : pystr := Eval cbv in lit "access_token".
Definition k_user_id : pystr := Eval cbv in lit "user_id".
Definition k_device_id : pystr := Eval cbv in lit "device_id".

Definition m_room_name : pystr := Eval cbv in lit "m.room.name".
Definition m_room_topic : pystr := Eval cbv in lit "m.room.topic".
Definition m_room_canonical_alias : pystr :=
  Eval cbv in lit "m.room.canonical_alias".
Definition m_room_encryption : pystr := Eval cbv in lit "m.room.encryption".
Definition m_room_member : pystr := Eval cbv in lit "m.room.member".
Definition m_room_message : pystr := Eval cbv in lit "m.room.message".

(** The continuation marker "..." *)
Definition dots : pystr := Eval cbv in lit "...".

(** ** The state-event fold (lines 187-206) *)

(** The five locals the loop over [state_events] updates. *)
Record locals : Type := Locals {
  room_name : value;
  room_topic : value;
  room_alias : value;
  is_encrypted : bool;
  member_count : nat
}.

Definition init_locals : locals :=
  {| room_name := VStr no_name;
     room_topic := VStr no_topic;
     room_alias := VStr no_alias;
     is_encrypted := false;
     member_count := 0 |}.

(** One iteration of [for event in state_events]. *)
Definition state_step (acc : locals) (event : value) : res locals :=
  event_type <- Py.get event k_type VNone ;;
  content <- Py.get event k_content (VDict []) ;;
  if Py.is_str event_type m_room_name then
    v <- Py.get content k_name (room_name acc) ;;
    Ok {| room_name := v; room_topic := room_topic acc;
          room_alias := room_alias acc; is_encrypted := is_encrypted acc;
          member_count := member_count acc |}
  else if Py.is_str event_type m_room_topic then
    v <- Py.get content k_topic (room_topic acc) ;;
    Ok {| room_name := room_name acc; room_topic := v;
          room_alias := room_alias acc; is_encrypted := is_encrypted acc;
          member_count := member_count acc |}
  else if Py.is_str event_type m_room_canonical_alias then
    v <- Py.get content k_alias (room_alias acc) ;;
    Ok {| room_name := room_name acc; room_topic := room_topic acc;
          room_alias := v; is_encrypted := is_encrypted acc;
          member_count := member_count acc |}
  else if Py.is_str event_type m_room_encryption then
    Ok {| room_name := room_name acc; room_topic := room_topic acc;
          room_alias := room_alias acc; is_encrypted := true;
          member_count := member_count acc |}
  else if Py.is_str event_type m_room_member then
    Ok {| room_name := room_name acc; room_topic := room_topic acc;
          room_alias := room_alias acc; is_encrypted := is_encrypted acc;
          member_count := member_count acc + 1 |}
  else Ok acc.

Fixpoint scan_state (acc : locals) (state_events : list value) : res locals :=
  match state_events with
  | [] => Ok acc
  | event :: rest => acc' <- state_step acc event ;; scan_state acc' rest
  end.

(** ** The reverse timeline scan (lines 209-218) *)

(** [body[:100] + "..." if len(body) > 100 else body].  Slicing a list and
    adding a str to it, or slicing a dict, raises [TypeError]. *)
Definition truncate (body : value) : res value :=
  n <- Py.len body ;;
  if 100 <? n then
    match body with
    | VStr s => Ok (VStr (firstn 100 s ++ dots))
    | _ => Raise
    end
  else Ok body.

(** The loop over [reversed(timeline_events)], given the events most recent
    first; [last_message] is the value the local holds when the loop is
    entered.  The [break] ends the scan at the first message with a body. *)
Fixpoint scan_timeline (last_message : value) (newest_first : list value)
  : res value :=
  match newest_first with
  | [] => Ok last_message
  | event :: older =>
      t <- Py.get event k_type VNone ;;
      if Py.is_str t m_room_message then
        content <- Py.get event k_content (VDict []) ;;
        has_body <- Py.contains k_body content ;;
        if has_body then
          body <- Py.getitem content k_body ;; truncate body
        else scan_timeline last_message older
      else scan_timeline last_message older
  end.

(** ** Assembling one room (lines 184-233) *)

(** The dict appended to [rooms]; [info_name] is its key ['name'], and so
    on. *)
Record room_info : Type := RoomInfo {
  info_room_id : pystr;
  info_name : value;
  info_canonical_alias : value;
  info_member_count : nat;
  info_is_encrypted : bool;
  info_topic : value;
  info_last_message : value;
  info_members : list value
}.

(** [room_data.get(outer, {}).get("events", [])] *)
Definition events_of (room_data : value) (outer : pystr) : res value :=
  section <- Py.get room_data outer (VDict []) ;;
  Py.get section k_events (VList []).

(** Lines 184-206: the locals after the loop over the state events. *)
Definition room_state (room_data : value) : res locals :=
  state_events <- events_of room_data k_state ;;
  l <- Py.iter state_events ;;
  scan_state init_locals l.

(** Lines 209-218: [last_message] after the timeline loop. *)
Definition room_last_message (room_data : value) : res value :=
  timeline_events <- events_of room_data k_timeline ;;
  l <- Py.reversed timeline_events ;;
  scan_timeline (VStr no_messages) l.

(** Lines 222-233, with [members] the list [get_room_members] returned. *)
Definition assemble (room_id : pystr) (acc : locals) (last_message : value)
  (members : list value) : room_info :=
  let nonempty := Py.truthy (VList members) in
  let members_preview := if nonempty then firstn 10 members else [] in
  {| info_room_id := room_id;
     info_name := room_name acc;
     info_canonical_alias := room_alias acc;
     info_member_count :=
       if nonempty then length members else member_count acc;
     info_is_encrypted := is_encrypted acc;
     info_topic := room_topic acc;
     info_last_message := last_message;
     info_members := members_preview |}.

(** The body of the loop over the joined rooms as a function of the roster
    it obtains from the member resolver. *)
Definition project (room_id : pystr) (room_data : value)
  (members : list value) : res room_info :=
  acc <- room_state room_data ;;
  last_message <- room_last_message room_data ;;
  Ok (assemble room_id acc last_message members).

(** ** The member roster (lines 155-160) *)

Definition member_entry (member : value) : res value :=
  content <- Py.get member k_content (VDict []) ;;
  display_name <- Py.get content k_displayname VNone ;;
  user_id <- Py.get member k_state_key (VStr []) ;;
  Ok (if Py.truthy display_name then display_name else user_id).

Fixpoint collect_members (members : list value) (chunk : list value)
  : res (list value) :=
  match chunk with
  | [] => Ok members
  | member :: rest =>
      entry <- member_entry member ;;
      collect_members (members ++ [entry]) rest
  end.

(** [members] as built from the parsed response body [data]. *)
Definition roster (data : value) : res (list value) :=
  chunk <- Py.get data k_chunk (VList []) ;;
  l <- Py.iter chunk ;;
  collect_members [] l.

(** ** The homeserver and the manager's state *)

(** The requests the manager issues, by endpoint.  The URL is
    [urljoin(self.homeserver, path)]; only the path and what the request
    carries are kept. *)
Inductive endpoint : Type :=
| Login (user password : pystr)  (* POST /_matrix/client/v3/login *)
| Sync (timeout : Z)             (* GET  /_matrix/client/v3/sync *)
| Members (room_id : pystr)      (* GET  /_matrix/client/v3/rooms/../members *)
| Logout.                        (* POST /_matrix/client/v3/logout *)

(** [authorization] is the token [_get_headers] puts in the [Authorization]
    header: present only when [self.access_token] is truthy. *)
Record request : Type := Request {
  target : endpoint;
  authorization : option value
}.

(** What a request comes back with: an exception raised by the transport, or
    a response with its status and its body as [response.json()] parses it
    ([None] when parsing raises). *)
Inductive reply : Type :=
| Unreachable
| Response (status : Z) (body : option value).

(** The homeserver answers a request knowing the requests sent before it. *)
Definition homeserver := list request -> request -> reply.

(** [self.session]: [None], or a [ClientSession] that is open or closed. *)
Inductive http_session : Type :=
| NoSession
| Session (closed : bool).

Record manager : Type := Manager {
  access_token : value;
  user_id : value;
  device_id : value;
  session : http_session
}.

(** [MatrixChatManager.__init__] *)
Definition init_manager : manager :=
  {| access_token := VNone; user_id := VNone; device_id := VNone;
     session := NoSession |}.

(** The manager together with the log of the requests sent so far, oldest
    first. *)
Record world : Type := World {
  self : manager;
  sent : list request
}.

(** A method body: it runs in a world, returns or raises, and leaves a
    world. *)
Definition io (A : Type) : Type := world -> res A * world.

Definition ret {A} (a : A) : io A := fun w => (Ok a, w).

Definition bind {A B} (m : io A) (k : A -> io B) : io B :=
  fun w =>
    match m w with
    | (Ok a, w') => k a w'
    | (Raise, w') => (Raise, w')
    end.

Definition lift {A} (r : res A) : io A := fun w => (r, w).

(** [try: m  except Exception: handler] *)
Definition try_except {A} (m handler : io A) : io A :=
  fun w =>
    match m w with
    | (Ok a, w') => (Ok a, w')
    | (Raise, w') => handler w'
    end.

(** [try: m  finally: fin] *)
Definition try_finally {A} (m : io A) (fin : io unit) : io A :=
  fun w =>
    match m w with
    | (r, w') =>
        match fin w' with
        | (Ok _, w'') => (r, w'')
        | (Raise, w'') => (Raise, w'')
        end
    end.

Declare Scope io_scope.
Delimit Scope io_scope with io.
Notation "x <- m ;; k" := (bind m (fun x => k))
  (at level 61, m at next level, right associativity) : io_scope.
Notation "m ;;; k" := (bind m (fun _ => k))
  (at level 61, right associativity) : io_scope.

Definition get_self : io manager := fun w => (Ok (self w), w).

Definition set_self (f : manager -> manager) : io unit :=
  fun w => (Ok tt, {| self := f (self w); sent := sent w |}).

Definition set_access_token (v : value) (m : manager) : manager :=
  {| access_token := v; user_id := user_id m; device_id := device_id m;
     session := session m |}.
Definition set_user_id (v : value) (m : manager) : manager :=
  {| access_token := access_token m; user_id := v; device_id := device_id m;
     session := session m |}.
Definition set_device_id (v : value) (m : manager) : manager :=
  {| access_token := access_token m; user_id := user_id m; device_id := v;
     session := session m |}.
Definition set_session (s : http_session) (m : manager) : manager :=
  {| access_token := access_token m; user_id := user_id m;
     device_id := device_id m; session := s |}.

(** [response.json()] *)
Definition json (body : option value) : res value :=
  match body with
  | Some v => Ok v
  | None => Raise
  end.

(** [username.split(":")[0]] *)
Fixpoint before_colon (s : pystr) : pystr :=
  match s with
  | [] => []
  | c :: s' => if N.eqb c 58 then [] else c :: before_colon s'
  end.

(** [s.lstrip("@")] *)
Fixpoint lstrip_at (s : pystr) : pystr :=
  match s with
  | [] => []
  | c :: s' => if N.eqb c 64 then lstrip_at s' else s
  end.

(** The ["user"] entry of [login_data] (line 72). *)
Definition login_user (username : pystr) : pystr :=
  if existsb (N.eqb 58) username then lstrip_at (before_colon username)
  else username.

Definition k_error : pystr := Eval cbv in lit "error".

(** ** Console output and UTF-8

    [print] encodes its text for the console as UTF-8, which takes every
    code point but a surrogate.  The prints of literals alone cannot raise
    and are left out; so are the prints of [str(e)] in the exception
    handlers, the message of an exception being ASCII. *)

Definition surrogate (c : N) : bool :=
  (55296 <=? c)%N && (c <=? 57343)%N.

(** [s.encode("utf-8")] does not raise. *)
Definition encodable (s : pystr) : bool :=
  forallb (fun c => negb (surrogate c)) s.

(** [print(f"..{v}..")]: a str is printed as it is, and raises
    [UnicodeEncodeError] when it holds a surrogate; any other value is
    printed through its [repr], which escapes surrogates. *)
Definition print_value (v : value) : res unit :=
  match v with
  | VStr s => if encodable s then Ok tt else Raise
  | _ => Ok tt
  end.

(** [quote(room_id)], as far as it can fail: it encodes the identifier as
    UTF-8.  The endpoint of a request keeps the identifier itself. *)
Definition quote (room_id : pystr) : res unit :=
  if encodable room_id then Ok tt else Raise.

(** [f"HTTP {response.status}"] *)
Definition http_status (status : Z) : value :=
  VStr (lit ("HTTP " ++ NilZero.string_of_int (Z.to_int status))).

Section Manager.

Variable server : homeserver.

Open Scope io_scope.

(** [_get_session]: a fresh session replaces a missing or closed one. *)
Definition _get_session : io unit :=
  m <- get_self ;;
  match session m with
  | Session false => ret tt
  | _ => set_self (set_session (Session false))
  end.

(** [_close_session] *)
Definition _close_session : io unit :=
  m <- get_self ;;
  match session m with
  | Session false => set_self (set_session (Session true))
  | _ => ret tt
  end.

(** [_get_headers], as far as the request record keeps it. *)
Definition _get_headers (m : manager) : option value :=
  if Py.truthy (access_token m) then Some (access_token m) else None.

(** [session.get(...)] / [session.post(...)] with [self._get_headers()]:
    the request is logged, then answered or failed by the server. *)
Definition send (e : endpoint) : io (Z * option value) :=
  fun w =>
    let r := {| target := e; authorization := _get_headers (self w) |} in
    let w' := {| self := self w; sent := sent w ++ [r] |} in
    match server (sent w) r with
    | Unreachable => (Raise, w')
    | Response status body => (Ok (status, body), w')
    end.

Definition login (username password : pystr) : io bool :=
  try_except
    (_get_session ;;;
     response <- send (Login (login_user username) password) ;;
     if (fst response =? 200)%Z then
       data <- lift (json (snd response)) ;;
       tok <- lift (Py.get data k_access_token VNone) ;;
       set_self (set_access_token tok) ;;;
       uid <- lift (Py.get data k_user_id VNone) ;;
       set_self (set_user_id uid) ;;;
       did <- lift (Py.get data k_device_id VNone) ;;
       set_self (set_device_id did) ;;;
       m <- get_self ;;
       lift (print_value (user_id m)) ;;;
       ret true
     else
       error_data <- lift (json (snd response)) ;;
       error_msg <-
         lift (Py.get error_data k_error (http_status (fst response))) ;;
       lift (print_value error_msg) ;;;
       ret false)
    (ret false).

(** [sync]; the returned value is [VNone] for Python's [None]. *)
Definition sync (timeout : Z) : io value :=
  m <- get_self ;;
  if negb (Py.truthy (access_token m)) then ret VNone
  else
    try_except
      (_get_session ;;;
       response <- send (Sync timeout) ;;
       if (fst response =? 200)%Z then lift (json (snd response))
       else
         error_data <- lift (json (snd response)) ;;
         error <- lift (Py.get error_data k_error (VInt (fst response))) ;;
         lift (print_value error) ;;;
         ret VNone)
      (ret VNone).

(** [get_room_members].  The handler prints the room identifier; an
    exception it raises itself leaves the method. *)
Definition get_room_members (room_id : pystr) : io (list value) :=
  m <- get_self ;;
  if negb (Py.truthy (access_token m)) then ret []
  else
    returned <-
      try_except
        (_get_session ;;;
         lift (quote room_id) ;;;
         response <- send (Members room_id) ;;
         if (fst response =? 200)%Z then
           data <- lift (json (snd response)) ;;
           members <- lift (roster data) ;;
           ret (Some members)
         else ret None)
        (lift (print_value (VStr room_id)) ;;; ret None) ;;
    match returned with
    | Some members => ret members
    | None => ret []
    end.

(** One iteration of the loop over [joined_rooms.items()]. *)
Definition room_entry (room_id : pystr) (room_data : value) : io room_info :=
  acc <- lift (room_state room_data) ;;
  last_message <- lift (room_last_message room_data) ;;
  members <- get_room_members room_id ;;
  ret (assemble room_id acc last_message members).

Fixpoint each_room (rooms : list room_info)
  (joined_rooms : list (pystr * value)) : io (list room_info) :=
  match joined_rooms with
  | [] => ret rooms
  | (room_id, room_data) :: rest =>
      room_info <- room_entry room_id room_data ;;
      each_room (rooms ++ [room_info]) rest
  end.

Definition get_user_chats : io (list room_info) :=
  m <- get_self ;;
  if negb (Py.truthy (access_token m)) then ret []
  else
    try_except
      (sync_data <- sync 30000 ;;
       if negb (Py.truthy sync_data) then ret []
       else
         joined_rooms <-
           lift (rooms <- Py.get sync_data k_rooms (VDict []) ;;
                 Py.get rooms k_join (VDict []))%res ;;
         l <- lift (Py.items joined_rooms) ;;
         each_room [] l)
      (ret []).

Definition clear_token (m : manager) : manager :=
  {| access_token := VNone; user_id := VNone; device_id := VNone;
     session := session m |}.

Definition logout : io unit :=
  m <- get_self ;;
  if negb (Py.truthy (access_token m)) then ret tt
  else
    try_finally
      (try_except
         (_get_session ;;; response <- send Logout ;; ret tt)
         (ret tt))
      (set_self clear_token ;;; _close_session).

End Manager.

(** ** Reading a fragment, to state what the projection computes *)

(** The type and the content record of an event, as [event.get("type")] and
    [event.get("content", {})] read them. *)
Definition event_type (e : value) : value :=
  match e with
  | VDict d => Py.dict_get d k_type VNone
  | _ => VNone
  end.

Definition event_content (e : value) : value :=
  match e with
  | VDict d => Py.dict_get d k_content (VDict [])
  | _ => VDict []
  end.

Definition has_type (t : pystr) (e : value) : bool :=
  Py.is_str (event_type e) t.

(** The value an event carries under [key] in its content record. *)
Definition carried (key : pystr) (e : value) : option value :=
  match event_content e with
  | VDict c => Py.lookup c key
  | _ => None
  end.

Definition carries (key : pystr) (e : value) : bool :=
  match carried key e with
  | Some _ => true
  | None => false
  end.

(** The last element of a sequence that satisfies [p]. *)
Fixpoint last_where (p : value -> bool) (l : list value) : option value :=
  match l with
  | [] => None
  | x :: rest =>
      match last_where p rest with
      | Some y => Some y
      | None => if p x then Some x else None
      end
  end.

(** The three overwritten fields of the summary. *)
Inductive field : Type := FName | FTopic | FAlias.

Definition field_type (f : field) : pystr :=
  match f with
  | FName => m_room_name
  | FTopic => m_room_topic
  | FAlias => m_room_canonical_alias
  end.

Definition field_key (f : field) : pystr :=
  match f with
  | FName => k_name
  | FTopic => k_topic
  | FAlias => k_alias
  end.

Definition field_default (f : field) : value :=
  match f with
  | FName => VStr no_name
  | FTopic => VStr no_topic
  | FAlias => VStr no_alias
  end.

Definition local_field (f : field) (acc : locals) : value :=
  match f with
  | FName => room_name acc
  | FTopic => room_topic acc
  | FAlias => room_alias acc
  end.

Definition info_field (f : field) (info : room_info) : value :=
  match f with
  | FName => info_name info
  | FTopic => info_topic info
  | FAlias => info_canonical_alias info
  end.

(** An event of the field's type that carries the field's key. *)
Definition writes (f : field) (e : value) : bool :=
  has_type (field_type f) e && carries (field_key f) e.

(** A message-type event whose content record has a body. *)
Definition message_with_body (e : value) : bool :=
  has_type m_room_message e && carries k_body e.

(** The state events and the timeline of a room, in the order the server
    sent them (empty when they cannot be iterated). *)
Definition state_log (room_data : value) : list value :=
  match (v <- events_of room_data k_state ;; Py.iter v) with
  | Ok l => l
  | Raise => []
  end.

Definition timeline_log (room_data : value) : list value :=
  match (v <- events_of room_data k_timeline ;; Py.iter v) with
  | Ok l => l
  | Raise => []
  end.

(** A fragment the server sends according to the protocol: both logs are
    lists of records whose content, when given, is a record, and the body
    of a message, when given, is a string. *)
Definition record_with_content (e : value) : bool :=
  match e with
  | VDict d =>
      match Py.dict_get d k_content (VDict []) with
      | VDict _ => true
      | _ => false
      end
  | _ => false
  end.

Definition body_is_text (e : value) : bool :=
  match carried k_body e with
  | Some (VStr _) | None => true
  | Some _ => false
  end.

Definition events_list (room_data : value) (outer : pystr) : option (list value) :=
  match events_of room_data outer with
  | Ok (VList l) => Some l
  | _ => None
  end.

Definition conformant (room_data : value) : bool :=
  match events_list room_data k_state, events_list room_data k_timeline with
  | Some st, Some tl =>
      forallb record_with_content st &&
      forallb (fun e => record_with_content e && body_is_text e) tl
  | _, _ => false
  end.

(** The roster entry of a membership record. *)
Definition entry_of (member : value) : value :=
  let display_name :=
    match carried k_displayname member with
    | Some v => v
    | None => VNone
    end in
  if Py.truthy display_name then display_name
  else match member with
       | VDict d => Py.dict_get d k_state_key (VStr [])
       | _ => VStr []
       end.

(** The request [get_room_members] sends from manager state [m]. *)
Definition members_request (room_id : pystr) (m : manager) : request :=
  {| target := Members room_id;
     authorization :=
       if Py.truthy (access_token m) then Some (access_token m) else None |}.

(** ** Sample data *)

Definition event (t : pystr) (content : dict) : value :=
  VDict [(k_type, VStr t); (k_content, VDict content)].

Definition text (s : string) : value := VStr (lit s).

Definition fragment (state_events timeline_events : list value) : value :=
  VDict [(k_state, VDict [(k_events, VList state_events)]);
         (k_timeline, VDict [(k_events, VList timeline_events)])].

Definition long_body : pystr := repeat 97%N 120.

(** State events [name=Ops], [topic=Infra], [name=Ops-2], three membership
    events; timeline [hi], then a 120-character message. *)
Definition ops_room : value :=
  fragment
    [event m_room_name [(k_name, text "Ops")];
     event m_room_topic [(k_topic, text "Infra")];
     event m_room_name [(k_name, text "Ops-2")];
     event m_room_member []; event m_room_member []; event m_room_member []]
    [event m_room_message [(k_body, text "hi")];
     event m_room_message [(k_body, VStr long_body)]].

(** A naming event without a name after one with a name, an encryption
    event followed by others, and a message without a body after one with a
    body. *)
Definition redacted_room : value :=
  fragment
    [event m_room_name [(k_name, text "A")];
     event m_room_encryption [];
     event m_room_name [];
     event m_room_member []]
    [event m_room_message [(k_body, text "hi")];
     event m_room_message []].

Definition two_members : list value := [text "alice"; text "bob"].

Definition room_a : pystr := Eval cbv in lit "!a:example.org".

Definition logged_in : world :=
  {| self := {| access_token := text "secret"; user_id := text "@u:example.org";
                device_id := text "DEV"; session := Session false |};
     sent := [] |}.

Definition fresh : world := {| self := init_manager; sent := [] |}.

(** Membership records: with a display name, with an empty display name,
    with none. *)
Definition alice : value :=
  VDict [(k_content, VDict [(k_displayname, text "Alice")]);
         (k_state_key, text "@alice:example.org")].
Definition bob : value :=
  VDict [(k_content, VDict [(k_displayname, VStr [])]);
         (k_state_key, text "@bob:example.org")].
Definition carol : value :=
  VDict [(k_content, VDict []);
         (k_state_key, text "@carol:example.org")].

Definition members_body : value :=
  VDict [(k_chunk, VList [alice; bob; carol])].

(** The summaries expected for the two sample rooms. *)
Definition ops_summary : room_info :=
  {| info_room_id := room_a;
     info_name := text "Ops-2";
     info_canonical_alias := VStr no_alias;
     info_member_count := 2;
     info_is_encrypted := false;
     info_topic := text "Infra";
     info_last_message := VStr (repeat 97%N 100 ++ dots);
     info_members := two_members |}.

Definition redacted_summary : room_info :=
  {| info_room_id := room_a;
     info_name := text "A";
     info_canonical_alias := VStr no_alias;
     info_member_count := 1;
     info_is_encrypted := true;
     info_topic := VStr no_topic;
     info_last_message := text "hi";
     info_members := [] |}.

(** The world a rejected login leaves behind. *)
Definition after_failed_login : world :=
  {| self := {| access_token := VNone; user_id := VNone; device_id := VNone;
                session := Session false |};
     sent := [{| target := Login (lit "user") (lit "pw");
                 authorization := None |}] |}.

(** A server that accepts everything. *)
Definition friendly : homeserver :=
  fun _ r =>
    match target r with
    | Login _ _ =>
        Response 200 (Some (VDict [(k_access_token, text "secret");
                                   (k_user_id, text "@u:example.org");
                                   (k_device_id, text "DEV")]))
    | Sync _ =>
        Response 200
          (Some (VDict [(k_rooms, VDict [(k_join, VDict [(room_a, ops_room)])])]))
    | Members _ => Response 200 (Some members_body)
    | Logout => Response 200 (Some (VDict []))
    end.

(** A server that rejects every request. *)
Definition hostile : homeserver :=
  fun _ _ => Response 403 (Some (VDict [(k_error, text "Forbidden")])).

(** A server that cannot be reached. *)
Definition unreachable : homeserver := fun _ _ => Unreachable.

(** The request [logout] sends from manager state [m] when it holds a
    token, and the manager state it leaves. *)
Definition logout_request (m : manager) : request :=
  {| target := Logout; authorization := Some (access_token m) |}.

Definition logged_out : manager :=
  {| access_token := VNone; user_id := VNone; device_id := VNone;
     session := Session true |}.

(** The events of the sample rooms that the examples name. *)
Definition keyless_name : value := event m_room_name [].
Definition bodyless_message : value := event m_room_message [].
Definition hi_message : value := event m_room_message [(k_body, text "hi")].
Definition long_message : value :=
  event m_room_message [(k_body, VStr long_body)].

(** ** Further readings of the code, to state what the methods do *)


(** An event whose type is none of the five the fold dispatches on. *)
Definition unrecognized (e : value) : bool :=
  negb (has_type m_room_name e) && negb (has_type m_room_topic e)
  && negb (has_type m_room_canonical_alias e)
  && negb (has_type m_room_encryption e)
  && negb (has_type m_room_member e).

(** The roster [get_room_members] builds from the answer to its request. *)
Definition roster_of_reply (r : reply) : list value :=
  match r with
  | Response status body =>
      if (status =? 200)%Z then
        match (data <- json body ;; roster data) with
        | Ok l => l
        | Raise => []
        end
      else []
  | Unreachable => []
  end.

(** The membership requests for a sequence of joined rooms. *)
Definition members_requests (rooms : list (pystr * value)) (m : manager)
  : list request :=
  map (fun r => members_request (fst r) m) rooms.

(** A joined room whose identifier can be encoded and whose fragment
    follows the protocol. *)
Definition room_ok (r : pystr * value) : bool :=
  encodable (fst r) && conformant (snd r).

(** Whether printing a value goes through. *)
Definition printable (v : value) : bool :=
  match print_value v with
  | Ok _ => true
  | Raise => false
  end.

(** The token state of a manager: what [login] sets and [logout] clears. *)
Definition identity (m : manager) : value * value * value :=
  (access_token m, user_id m, device_id m).

(** The requests [login] and [sync] send from manager state [m]. *)
Definition login_request (username password : pystr) (m : manager)
  : request :=
  {| target := Login (login_user username) password;
     authorization :=
       if Py.truthy (access_token m) then Some (access_token m) else None |}.

Definition sync_request (timeout : Z) (m : manager) : request :=
  {| target := Sync timeout;
     authorization :=
       if Py.truthy (access_token m) then Some (access_token m) else None |}.

(** [sync_data.get("rooms", {}).get("join", {})], when both lookups are on
    records and give a record. *)
Definition joined_rooms_of (sync_data : value)
  : option (list (pystr * value)) :=
  match sync_data with
  | VDict d =>
      match Py.dict_get d k_rooms (VDict []) with
      | VDict r =>
          match Py.dict_get r k_join (VDict []) with
          | VDict rooms => Some rooms
          | _ => None
          end
      | _ => None
      end
  | _ => None
  end.

(** A method body that, in every world and however it ends, leaves the
    token state of the manager as it found it. *)
Definition keeps_identity {A} (m : io A) : Prop :=
  forall w, identity (self (snd (m w))) = identity (self w).

(** ** [display_chats] and [main] (lines 264-329) *)

(** [", ".join(members)]: [TypeError] on a member that is not a str. *)
Fixpoint join (sep : pystr) (members : list value) : res pystr :=
  match members with
  | [] => Ok []
  | VStr s :: rest =>
      match rest with
      | [] => Ok s
      | _ => (r <- join sep rest ;; Ok (s ++ sep ++ r))%res
      end
  | _ :: _ => Raise
  end.

Definition comma : pystr := Eval cbv in lit ", ".

(** The prints of [display_chats] for one chat (lines 274-284). *)
Definition display_chat (chat : room_info) : res unit :=
  (_ <- print_value (info_name chat) ;;
   _ <- print_value (VStr (info_room_id chat)) ;;
   _ <- print_value (info_canonical_alias chat) ;;
   _ <- print_value (info_topic chat) ;;
   _ <- print_value (info_last_message chat) ;;
   if Py.truthy (VList (info_members chat)) then
     members_preview <- join comma (info_members chat) ;;
     print_value (VStr members_preview)
   else Ok tt)%res.

(** [display_chats] only prints; what is kept of it is whether it
    raises. *)
Fixpoint display_chats (chats : list room_info) : res unit :=
  match chats with
  | [] => Ok tt
  | chat :: rest => (_ <- display_chat chat ;; display_chats rest)%res
  end.

(** What [json.dump(.., ensure_ascii=False)] can write to a UTF-8 file:
    a value none of whose strings holds a surrogate. *)
Fixpoint writable_value (v : value) : bool :=
  match v with
  | VStr s => encodable s
  | VList l => forallb writable_value l
  | VDict d =>
      forallb (fun kv => encodable (fst kv) && writable_value (snd kv)) d
  | _ => true
  end.

Definition writable_chat (chat : room_info) : bool :=
  encodable (info_room_id chat) && writable_value (info_name chat)
  && writable_value (info_canonical_alias chat)
  && writable_value (info_topic chat)
  && writable_value (info_last_message chat)
  && forallb writable_value (info_members chat).

Definition raise {A} : io A := fun w => (Raise, w).

(** Lines 316-325 of [main]: fetch the chats, show them, and write them to
    [matrix_chats.json] when there are any; [writable] tells whether the
    file can be opened.  The result is what was written, if anything. *)
Definition show_and_save (server : homeserver) (writable : bool)
  : io (option (list room_info)) :=
  (chats <- get_user_chats server ;;
   lift (display_chats chats) ;;;
   if Nat.eqb (length chats) 0 then ret None
   else if writable && forallb writable_chat chats then ret (Some chats)
        else raise)%io.

(** [main], given the two stripped console inputs. *)
Definition main (server : homeserver) (writable : bool)
  (username password : pystr) : io (option (list room_info)) :=
  (set_self (fun _ => init_manager) ;;;
   try_finally
     (login_success <- login server username password ;;
      if negb login_success then ret None
      else show_and_save server writable)
     (logout server))%io.

(** ** More sample data *)

(** A room whose state events are not a sequence. *)
Definition broken_room : value :=
  VDict [(k_state, VDict [(k_events, VInt 7)])].

(** A timeline whose older events are not records. *)
Definition junk_then_hi : value :=
  VDict [(k_timeline, VDict [(k_events, VList [VInt 1; VNone; hi_message])])].

(** A custom state event. *)
Definition custom_event : value :=
  VDict [(k_type, text "org.example.custom"); (k_content, VInt 3)].

Definition room_b : pystr := Eval cbv in lit "!b:example.org".

(** A room identifier and a user identifier with a lone surrogate, as
    [json.loads] reads them from an escape such as \ud800. *)
Definition room_s : pystr := [33; 55296; 58; 120]%N.


(** A server that accepts the login and then serves one good and one broken
    room. *)
Definition half_broken : homeserver :=
  fun _ r =>
    match target r with
    | Sync _ =>
        Response 200
          (Some (VDict [(k_rooms,
             VDict [(k_join, VDict [(room_a, ops_room);
                                    (room_b, broken_room)])])]))
    | _ => friendly [] r
    end.

(** * Properties *)

(** ** Strings and event types *)

Lemma str_eqb_eq (a b : pystr) : Py.str_eqb a b = true <-> a = b.
Proof.
  revert b; induction a as [|x a IH]; intros [|y b]; simpl;
    try (split; [discriminate | discriminate]); try tauto.
  rewrite andb_true_iff, N.eqb_eq, IH.
  split; [intros [-> ->]; reflexivity | intros H; inversion H; auto].
Qed.

Lemma is_str_eq (v : value) (s : pystr) : Py.is_str v s = true -> v = VStr s.
Proof.
  destruct v; simpl; try discriminate.
  intros H; apply str_eqb_eq in H; congruence.
Qed.

(** A value equal to one literal compares to another literal as the
    literals compare. *)
Lemma is_str_other (v : value) (a b : pystr) :
  Py.is_str v a = true -> Py.is_str v b = Py.str_eqb a b.
Proof. intros H; apply is_str_eq in H; subst v; reflexivity. Qed.

(** From [Py.is_str u a = true], what [u] is not: the comparisons of [u]
    with the five state-event types. *)
Ltac other_types E :=
  match type of E with
  | Py.is_str ?u ?a = true =>
      let b1 := eval vm_compute in (Py.str_eqb a m_room_name) in
      let b2 := eval vm_compute in (Py.str_eqb a m_room_topic) in
      let b3 := eval vm_compute in (Py.str_eqb a m_room_canonical_alias) in
      let b4 := eval vm_compute in (Py.str_eqb a m_room_encryption) in
      let b5 := eval vm_compute in (Py.str_eqb a m_room_member) in
      assert (O1 : Py.is_str u m_room_name = b1)
        by exact (is_str_other u a m_room_name E);
      assert (O2 : Py.is_str u m_room_topic = b2)
        by exact (is_str_other u a m_room_topic E);
      assert (O3 : Py.is_str u m_room_canonical_alias = b3)
        by exact (is_str_other u a m_room_canonical_alias E);
      assert (O4 : Py.is_str u m_room_encryption = b4)
        by exact (is_str_other u a m_room_encryption E);
      assert (O5 : Py.is_str u m_room_member = b5)
        by exact (is_str_other u a m_room_member E)
  end.

Lemma last_where_app (p : value -> bool) (l1 l2 : list value) :
  last_where p (l1 ++ l2) =
  match last_where p l2 with
  | Some y => Some y
  | None => last_where p l1
  end.
Proof.
  induction l1 as [|x l1 IH]; simpl.
  - destruct (last_where p l2); reflexivity.
  - rewrite IH. destruct (last_where p l2); reflexivity.
Qed.

(** [last_where] is the first match met when the sequence is walked from
    its end. *)
Lemma last_where_rev (p : value -> bool) (l : list value) :
  last_where p l = find p (rev l).
Proof.
  induction l as [|x l IH] using rev_ind; [reflexivity|].
  rewrite last_where_app, rev_app_distr; simpl.
  destruct (p x); [reflexivity | exact IH].
Qed.

Lemma last_where_none (p : value -> bool) (l : list value) :
  last_where p l = None <-> forallb (fun e => negb (p e)) l = true.
Proof.
  induction l as [|x l IH]; simpl; [tauto|].
  destruct (last_where p l) eqn:E.
  - split; [discriminate|].
    rewrite andb_true_iff; intros [_ H]; apply IH in H; discriminate.
  - assert (F : forallb (fun e => negb (p e)) l = true) by (apply IH; reflexivity).
    rewrite F, andb_true_r.
    destruct (p x); simpl; split; congruence.
Qed.

(** ** The state-event fold *)

(** What one iteration does to the locals, whenever it does not raise. *)
Lemma state_step_inv (acc acc' : locals) (e : value) :
  state_step acc e = Ok acc' ->
  (forall f,
      local_field f acc' =
      if has_type (field_type f) e then
        match carried (field_key f) e with
        | Some v => v
        | None => local_field f acc
        end
      else local_field f acc) /\
  is_encrypted acc' = is_encrypted acc || has_type m_room_encryption e /\
  member_count acc' =
    member_count acc + (if has_type m_room_member e then 1 else 0).
Proof.
  destruct e as [| | | | |d]; try discriminate.
  unfold state_step, has_type, carried; simpl.
  set (t := Py.dict_get d k_type VNone).
  destruct (Py.is_str t m_room_name) eqn:E1;
    [|destruct (Py.is_str t m_room_topic) eqn:E2;
      [|destruct (Py.is_str t m_room_canonical_alias) eqn:E3;
        [|destruct (Py.is_str t m_room_encryption) eqn:E4;
          [|destruct (Py.is_str t m_room_member) eqn:E5]]]].
  all: try (destruct (Py.dict_get d k_content (VDict [])) as [| | | | |c];
            simpl; try discriminate; unfold Py.dict_get).
  all: intros H; injection H as <-; simpl.
  all: try match goal with
       | E : Py.is_str ?u ?a = true |- _ => other_types E
       end.
  all: split;
    [ intros [| |]; simpl; rewrite ?O1, ?O2, ?O3, ?E1, ?E2, ?E3; reflexivity
    | rewrite ?O4, ?O5, ?E4, ?E5, ?orb_false_r, ?orb_true_r, ?Nat.add_0_r;
      auto ].
Qed.

Lemma last_where_sound (p : value -> bool) (l : list value) (y : value) :
  last_where p l = Some y -> p y = true /\ In y l.
Proof.
  induction l as [|x l IH]; simpl; [discriminate|].
  destruct (last_where p l) as [z|].
  - intros H; injection H as ->. destruct IH as [? ?]; auto.
  - destruct (p x) eqn:E; [|discriminate].
    intros H; injection H as ->; auto.
Qed.

(** The locals after the whole fold, from the locals before it. *)
Lemma scan_state_inv (evs : list value) :
  forall acc acc', scan_state acc evs = Ok acc' ->
  (forall f,
      match last_where (writes f) evs with
      | Some e => carried (field_key f) e = Some (local_field f acc')
      | None => local_field f acc' = local_field f acc
      end) /\
  is_encrypted acc' =
    is_encrypted acc || existsb (has_type m_room_encryption) evs /\
  member_count acc' =
    member_count acc + length (filter (has_type m_room_member) evs).
Proof.
  induction evs as [|e rest IH]; intros acc acc'; simpl.
  - intros H; injection H as <-.
    rewrite orb_false_r, Nat.add_0_r; auto.
  - destruct (state_step acc e) as [acc1|] eqn:S; simpl; [|discriminate].
    intros H.
    destruct (state_step_inv _ _ _ S) as (F1 & E1 & M1).
    destruct (IH _ _ H) as (F & E & M).
    split; [|split].
    + intros f. specialize (F f). specialize (F1 f).
      destruct (last_where (writes f) rest) as [y|]; [exact F|].
      unfold writes, carries.
      destruct (has_type (field_type f) e); simpl; [|congruence].
      destruct (carried (field_key f) e) eqn:C; simpl; congruence.
    + rewrite E, E1, orb_assoc; reflexivity.
    + rewrite M, M1.
      destruct (has_type m_room_member e); simpl; lia.
Qed.

Lemma state_step_total (acc : locals) (e : value) :
  record_with_content e = true -> exists acc', state_step acc e = Ok acc'.
Proof.
  destruct e as [| | | | |d]; simpl; try discriminate.
  unfold state_step; simpl.
  destruct (Py.dict_get d k_content (VDict [])); try discriminate.
  intros _.
  repeat match goal with
         | |- context [if ?b then _ else _] => destruct b
         end; simpl; eauto.
Qed.

Lemma scan_state_total (evs : list value) :
  forall acc, forallb record_with_content evs = true ->
  exists acc', scan_state acc evs = Ok acc'.
Proof.
  induction evs as [|e rest IH]; intros acc; simpl; [eauto|].
  rewrite andb_true_iff; intros [He Hr].
  destruct (state_step_total acc e He) as [acc1 ->]; simpl; auto.
Qed.

(** ** Truncation and the timeline scan *)

Lemma truncate_text (b : pystr) :
  truncate (VStr b) =
  Ok (VStr (if length b <=? 100 then b else firstn 100 b ++ dots)).
Proof.
  unfold truncate; simpl.
  destruct (Nat.ltb_spec 100 (length b)), (Nat.leb_spec (length b) 100);
    try lia; reflexivity.
Qed.

(** The result of the scan, whenever it does not raise: the truncated body
    of the first message with a body it meets, or the value it started
    with. *)
Lemma scan_timeline_inv (lm v : value) (l : list value) :
  scan_timeline lm l = Ok v ->
  match find message_with_body l with
  | Some e => exists body, carried k_body e = Some body /\ truncate body = Ok v
  | None => v = lm
  end.
Proof.
  induction l as [|e older IH]; simpl.
  - intros H; injection H as <-; reflexivity.
  - destruct e as [| | | | |d]; try discriminate.
    unfold message_with_body at 1, has_type, carries, carried; simpl.
    destruct (Py.is_str (Py.dict_get d k_type VNone) m_room_message);
      simpl; [|exact IH].
    destruct (Py.dict_get d k_content (VDict [])) as [| | |s|l0|c] eqn:C;
      simpl; try discriminate.
    + destruct (Py.substring k_body s); simpl; [discriminate | exact IH].
    + destruct (existsb _ l0); simpl; [discriminate | exact IH].
    + destruct (Py.lookup c k_body) as [body|] eqn:L; simpl; [|exact IH].
      intros H; exists body; rewrite C; auto.
Qed.

Lemma scan_timeline_total (lm : value) (l : list value) :
  forallb (fun e => record_with_content e && body_is_text e) l = true ->
  exists v, scan_timeline lm l = Ok v.
Proof.
  induction l as [|e older IH]; simpl; [eauto|].
  rewrite !andb_true_iff; intros [[Hr Hb] Ho].
  destruct e as [| | | | |d]; try discriminate.
  unfold body_is_text, carried in Hb; simpl in *.
  destruct (Py.is_str (Py.dict_get d k_type VNone) m_room_message);
    simpl; auto.
  destruct (Py.dict_get d k_content (VDict [])) as [| | | | |c];
    try discriminate; simpl.
  destruct (Py.lookup c k_body) as [[| | |b| |]|]; simpl; try discriminate;
    auto.
  rewrite truncate_text; eauto.
Qed.

(** ** The projection of one room *)

Lemma project_inv (room_id : pystr) (room_data : value)
  (members : list value) (info : room_info) :
  project room_id room_data members = Ok info ->
  exists acc last_message,
    scan_state init_locals (state_log room_data) = Ok acc /\
    scan_timeline (VStr no_messages) (rev (timeline_log room_data))
      = Ok last_message /\
    info = assemble room_id acc last_message members.
Proof.
  unfold project, room_state, room_last_message, state_log, timeline_log,
    Py.reversed.
  destruct (events_of room_data k_state) as [se|]; simpl; [|discriminate].
  destruct (Py.iter se) as [ls|]; simpl; [|discriminate].
  destruct (scan_state init_locals ls) as [acc|]; simpl; [|discriminate].
  destruct (events_of room_data k_timeline) as [te|]; simpl; [|discriminate].
  destruct (Py.iter te) as [lt|]; simpl; [|discriminate].
  destruct (scan_timeline (VStr no_messages) (rev lt)) as [lm|]; simpl;
    [|discriminate].
  intros H; injection H as <-; eauto.
Qed.

(** A fragment that follows the protocol always yields a summary. *)
Lemma project_total (room_id : pystr) (room_data : value)
  (members : list value) :
  conformant room_data = true ->
  exists info, project room_id room_data members = Ok info.
Proof.
  unfold conformant, events_list, project, room_state, room_last_message,
    Py.reversed.
  destruct (events_of room_data k_state) as [[| | | |st|]|]; try discriminate.
  destruct (events_of room_data k_timeline) as [[| | | |tl|]|];
    try discriminate.
  rewrite andb_true_iff; intros [Hs Ht]; simpl.
  destruct (scan_state_total st init_locals Hs) as [acc ->]; simpl.
  destruct (scan_timeline_total (VStr no_messages) (rev tl)) as [lm ->];
    simpl; eauto.
  apply forallb_forall; intros x Hx.
  apply (proj1 (forallb_forall _ _) Ht), in_rev, Hx.
Qed.

Lemma scan_state_app (l1 l2 : list value) :
  forall acc,
    scan_state acc (l1 ++ l2) =
    (acc1 <- scan_state acc l1 ;; scan_state acc1 l2).
Proof.
  induction l1 as [|e l1 IH]; intros acc; simpl; [reflexivity|].
  destruct (state_step acc e) as [acc1|]; simpl; auto.
Qed.

(** An event of a field's type whose content has no value for the field
    changes none of the locals. *)
Lemma state_step_keyless (f : field) (acc acc' : locals) (e : value) :
  has_type (field_type f) e = true ->
  carried (field_key f) e = None ->
  state_step acc e = Ok acc' -> acc' = acc.
Proof.
  destruct e as [| | | | |d]; try discriminate.
  unfold has_type, carried, state_step; simpl.
  intros T. other_types T.
  destruct f; simpl in *; rewrite ?O1, ?O2, ?O3; simpl;
    (destruct (Py.dict_get d k_content (VDict [])) as [| | | | |c];
     simpl; try discriminate);
    unfold Py.dict_get; intros ->; intros H; injection H as <-;
    destruct acc; reflexivity.
Qed.

Lemma last_where_split (p : value -> bool) (older newer : list value)
  (e : value) :
  p e = true ->
  forallb (fun x => negb (p x)) newer = true ->
  last_where p (older ++ e :: newer) = Some e.
Proof.
  intros He Hn. rewrite last_where_app; simpl.
  apply last_where_none in Hn. rewrite Hn, He. reflexivity.
Qed.

(** The fields of the summary are the locals at the end of the fold. *)
Lemma info_field_assemble (f : field) (room_id : pystr) (acc : locals)
  (last_message : value) (members : list value) :
  info_field f (assemble room_id acc last_message members) =
  local_field f acc.
Proof. destruct f; reflexivity. Qed.

Lemma init_field (f : field) : local_field f init_locals = field_default f.
Proof. destruct f; reflexivity. Qed.

(** What the summary's overwritten fields hold. *)
Lemma project_field (f : field) (room_id : pystr) (room_data : value)
  (members : list value) (info : room_info) :
  project room_id room_data members = Ok info ->
  match last_where (writes f) (state_log room_data) with
  | Some e => carried (field_key f) e = Some (info_field f info)
  | None => info_field f info = field_default f
  end.
Proof.
  intros H. destruct (project_inv _ _ _ _ H) as (acc & lm & S & _ & ->).
  rewrite info_field_assemble, <- init_field.
  exact (proj1 (scan_state_inv _ _ _ S) f).
Qed.

(** What the summary's last message holds. *)
Lemma project_last_message (room_id : pystr) (room_data : value)
  (members : list value) (info : room_info) :
  project room_id room_data members = Ok info ->
  match last_where message_with_body (timeline_log room_data) with
  | Some e =>
      exists body,
        carried k_body e = Some body /\
        truncate body = Ok (info_last_message info)
  | None => info_last_message info = VStr no_messages
  end.
Proof.
  intros H. destruct (project_inv _ _ _ _ H) as (acc & lm & _ & T & ->).
  rewrite last_where_rev. exact (scan_timeline_inv _ _ _ T).
Qed.

(** ** The claims about the projection *)

(** C1 (as amended).  For every fragment that yields a summary, each of the
    fields name, topic and alias equals the value carried by the last state
    event of the respective type whose content has the field's key,
    whatever the earlier events were; when no event of the type carries the
    key, in particular when no event of the type occurs, the field equals
    its default. *)
Theorem C1_last_written_value (f : field) (room_id : pystr)
  (room_data : value) (members : list value) (info : room_info) :
  project room_id room_data members = Ok info ->
  match last_where (writes f) (state_log room_data) with
  | Some e => carried (field_key f) e = Some (info_field f info)
  | None => info_field f info = field_default f
  end /\
  (last_where (has_type (field_type f)) (state_log room_data) = None ->
   info_field f info = field_default f).
Proof.
  intros H. pose proof (project_field f _ _ _ _ H) as F.
  split; [exact F|].
  intros N.
  destruct (last_where (writes f) (state_log room_data)) as [e|] eqn:W;
    [|exact F].
  exfalso.
  destruct (last_where_sound _ _ _ W) as [We Ie].
  apply last_where_none in N.
  apply (proj1 (forallb_forall _ _) N) in Ie.
  unfold writes in We. apply andb_true_iff in We.
  destruct We as [We _]. rewrite We in Ie. discriminate.
Qed.

(** C2.  The encrypted flag of the summary is true exactly when some state
    event of the fragment is an encryption event; once the fold has set the
    flag after a prefix of the events, the summary has it set whatever
    follows. *)
Theorem C2_encrypted_iff_seen (room_id : pystr) (room_data : value)
  (members : list value) (info : room_info) :
  project room_id room_data members = Ok info ->
  (info_is_encrypted info = true <->
   exists e, In e (state_log room_data) /\
             has_type m_room_encryption e = true) /\
  (forall before after acc,
      state_log room_data = before ++ after ->
      scan_state init_locals before = Ok acc ->
      is_encrypted acc = true ->
      info_is_encrypted info = true).
Proof.
  intros H. destruct (project_inv _ _ _ _ H) as (acc & lm & S & _ & ->).
  simpl. split.
  - destruct (scan_state_inv _ _ _ S) as (_ & E & _).
    rewrite E; simpl. rewrite existsb_exists. reflexivity.
  - intros before after acc0 L S0 E0.
    rewrite L, scan_state_app, S0 in S; simpl in S.
    destruct (scan_state_inv _ _ _ S) as (_ & E & _).
    rewrite E, E0. reflexivity.
Qed.

(** C3 (as amended).  For every fragment that yields a summary, the last
    message is the truncated body of the message-type timeline event
    closest to the end among those whose content has a body; when no
    message-type event has a body, in particular when the timeline has no
    message-type event, it is the default. *)
Theorem C3_last_message (room_id : pystr) (room_data : value)
  (members : list value) (info : room_info) :
  project room_id room_data members = Ok info ->
  match last_where message_with_body (timeline_log room_data) with
  | Some e =>
      exists body,
        carried k_body e = Some body /\
        truncate body = Ok (info_last_message info)
  | None => info_last_message info = VStr no_messages
  end /\
  (last_where (has_type m_room_message) (timeline_log room_data) = None ->
   info_last_message info = VStr no_messages).
Proof.
  intros H. pose proof (project_last_message _ _ _ _ H) as F.
  split; [exact F|].
  intros N.
  destruct (last_where message_with_body (timeline_log room_data))
    as [e|] eqn:W; [|exact F].
  exfalso.
  destruct (last_where_sound _ _ _ W) as [We Ie].
  apply last_where_none in N.
  apply (proj1 (forallb_forall _ _) N) in Ie.
  unfold message_with_body in We. apply andb_true_iff in We.
  destruct We as [We _]. rewrite We in Ie. discriminate.
Qed.

(** C4.  When the most recent message with a body has the text [b] as its
    body, the last message is [b] itself if [b] has at most 100 characters,
    and the first 100 characters of [b] followed by the marker "..." if it
    has more. *)
Theorem C4_truncation (room_id : pystr) (room_data : value)
  (members : list value) (info : room_info)
  (older newer : list value) (e : value) (b : pystr) :
  project room_id room_data members = Ok info ->
  timeline_log room_data = older ++ e :: newer ->
  has_type m_room_message e = true ->
  carried k_body e = Some (VStr b) ->
  forallb (fun x => negb (message_with_body x)) newer = true ->
  (length b <= 100 -> info_last_message info = VStr b) /\
  (100 < length b -> info_last_message info = VStr (firstn 100 b ++ dots)).
Proof.
  intros H L T B N.
  pose proof (project_last_message _ _ _ _ H) as F.
  rewrite L, (last_where_split message_with_body) in F; auto.
  2: { unfold message_with_body, carries. rewrite T, B. reflexivity. }
  destruct F as (body & B' & Tr).
  rewrite B in B'. injection B' as <-.
  rewrite truncate_text in Tr. injection Tr as <-.
  split; intros Hl.
  - apply Nat.leb_le in Hl. rewrite Hl. reflexivity.
  - apply Nat.leb_gt in Hl. rewrite Hl. reflexivity.
Qed.

(** C5.  With a non-empty roster the member count is the roster's length
    and the members are its first 10 entries; with an empty roster the
    member count is the number of membership events among the state events
    and the members are empty. *)
Theorem C5_member_roster (room_id : pystr) (room_data : value)
  (members : list value) (info : room_info) :
  project room_id room_data members = Ok info ->
  (members <> [] ->
   info_member_count info = length members /\
   info_members info = firstn 10 members) /\
  (members = [] ->
   info_member_count info =
     length (filter (has_type m_room_member) (state_log room_data)) /\
   info_members info = []).
Proof.
  intros H. destruct (project_inv _ _ _ _ H) as (acc & lm & S & _ & ->).
  destruct (scan_state_inv _ _ _ S) as (_ & _ & M).
  split.
  - intros Hne. destruct members as [|m ms]; [congruence|]. auto.
  - intros ->. simpl. rewrite M. auto.
Qed.

(** C9.  A naming, topic or alias event whose content lacks the value key
    leaves the locals as they were: the fold gives the same result as
    without the event, and the summary's field is the value of the last
    event of the type that carries the key (the default when there is
    none). *)
Theorem C9_keyless_event_ignored (f : field) (room_id : pystr)
  (room_data : value) (members : list value) (info : room_info)
  (before after : list value) (e : value) :
  project room_id room_data members = Ok info ->
  state_log room_data = before ++ e :: after ->
  has_type (field_type f) e = true ->
  carried (field_key f) e = None ->
  (forall acc acc', state_step acc e = Ok acc' -> acc' = acc) /\
  scan_state init_locals (before ++ after) =
    scan_state init_locals (state_log room_data) /\
  match last_where (writes f) (before ++ after) with
  | Some w => carried (field_key f) w = Some (info_field f info)
  | None => info_field f info = field_default f
  end.
Proof.
  intros H L T C.
  assert (K : forall acc acc', state_step acc e = Ok acc' -> acc' = acc)
    by (intros acc acc'; apply (state_step_keyless f); assumption).
  destruct (project_inv _ _ _ _ H) as (acc & lm & S & _ & ->).
  assert (E : scan_state init_locals (before ++ after) =
              scan_state init_locals (state_log room_data)).
  { rewrite L, !scan_state_app.
    rewrite L, scan_state_app in S.
    destruct (scan_state init_locals before) as [acc1|]; simpl in *;
      [|discriminate].
    destruct (state_step acc1 e) as [acc2|] eqn:St; simpl in *;
      [|discriminate].
    rewrite (K _ _ St). reflexivity. }
  split; [exact K|]. split; [exact E|].
  rewrite S in E.
  rewrite info_field_assemble, <- init_field.
  exact (proj1 (scan_state_inv _ _ _ E) f).
Qed.

(** C10.  Message-type events without a body (and events of other types)
    at the end of the timeline are skipped: the last message is what the
    scan finds in the older events, so it is the truncated body of the most
    recent message that has one, and the default when there is none. *)
Theorem C10_bodyless_message_skipped (room_id : pystr) (room_data : value)
  (members : list value) (info : room_info) (older newer : list value) :
  project room_id room_data members = Ok info ->
  timeline_log room_data = older ++ newer ->
  forallb (fun x => negb (message_with_body x)) newer = true ->
  last_where message_with_body (timeline_log room_data) =
    last_where message_with_body older /\
  (forall before e body,
      older = before ++ [e] ->
      has_type m_room_message e = true ->
      carried k_body e = Some body ->
      truncate body = Ok (info_last_message info)) /\
  (forallb (fun x => negb (message_with_body x)) older = true ->
   info_last_message info = VStr no_messages).
Proof.
  intros H L N.
  pose proof (project_last_message _ _ _ _ H) as F.
  assert (E : last_where message_with_body (timeline_log room_data) =
              last_where message_with_body older).
  { rewrite L, last_where_app.
    apply last_where_none in N. rewrite N. reflexivity. }
  rewrite E in F.
  split; [exact E|]. split.
  - intros before e body -> T B.
    rewrite last_where_app in F; simpl in F.
    unfold message_with_body at 1 2, carries in F. rewrite T, B in F.
    simpl in F. destruct F as (body' & B' & Tr).
    rewrite B in B'. injection B' as <-. exact Tr.
  - intros No. apply last_where_none in No. rewrite No in F. exact F.
Qed.

(** ** The member resolver *)

Lemma member_entry_record (member : value) :
  record_with_content member = true ->
  member_entry member = Ok (entry_of member).
Proof.
  destruct member as [| | | | |d]; simpl; try discriminate.
  unfold member_entry, entry_of, carried; simpl.
  destruct (Py.dict_get d k_content (VDict [])) as [| | | | |c];
    try discriminate; simpl.
  intros _. unfold Py.dict_get at 1 2 3.
  destruct (Py.lookup c k_displayname); reflexivity.
Qed.

Lemma collect_members_records (chunk : list value) :
  forall members,
    forallb record_with_content chunk = true ->
    collect_members members chunk = Ok (members ++ map entry_of chunk).
Proof.
  induction chunk as [|m rest IH]; intros members; simpl.
  - rewrite app_nil_r; reflexivity.
  - rewrite andb_true_iff; intros [Hm Hr].
    rewrite (member_entry_record m Hm); simpl.
    rewrite (IH _ Hr), <- app_assoc; reflexivity.
Qed.

(** The roster of a well-formed response: one entry per record, in the
    order of the chunk. *)
Lemma roster_records (d : dict) (chunk : list value) :
  Py.dict_get d k_chunk (VList []) = VList chunk ->
  forallb record_with_content chunk = true ->
  roster (VDict d) = Ok (map entry_of chunk).
Proof.
  intros C R. unfold roster; simpl. rewrite C; simpl.
  apply (collect_members_records chunk [] R).
Qed.

(** What [get_room_members] returns and sends, in every world, for a room
    identifier that can be encoded. *)
Lemma get_room_members_spec (server : homeserver) (room_id : pystr)
  (w : world) :
  encodable room_id = true ->
  exists members w',
    get_room_members server room_id w = (Ok members, w') /\
    (Py.truthy (access_token (self w)) = false -> members = [] /\ w' = w) /\
    (Py.truthy (access_token (self w)) = true ->
     sent w' = sent w ++ [members_request room_id (self w)] /\
     members =
       match server (sent w) (members_request room_id (self w)) with
       | Response status body =>
           if (status =? 200)%Z then
             match (data <- json body ;; roster data) with
             | Ok l => l
             | Raise => []
             end
           else []
       | Unreachable => []
       end).
Proof.
  destruct w as [m log]. intros Q.
  cbv beta iota zeta delta
    [get_room_members bind get_self try_except _get_session send set_self
     lift ret members_request _get_headers self sent fst snd negb quote
     print_value].
  rewrite Q.
  destruct (Py.truthy (access_token m)) eqn:T.
  2: { do 2 eexists; split; [reflexivity|]. split; [auto | discriminate]. }
  destruct (session m) as [|[|]]; simpl; rewrite ?T;
    (destruct (server log _) as [|status body]; simpl;
     [ do 2 eexists; split; [reflexivity|]; split; [discriminate|];
       intros _; split; reflexivity
     | destruct (status =? 200)%Z; simpl;
       [ destruct body as [data|]; simpl;
         [ destruct (roster data); simpl |]
       | ];
       do 2 eexists; (split; [reflexivity|]); (split; [discriminate|]);
       intros _; split; reflexivity ]).
Qed.


Lemma entry_of_display_name (member dn : value) :
  carried k_displayname member = Some dn ->
  Py.truthy dn = true ->
  entry_of member = dn.
Proof. unfold entry_of. intros -> ->. reflexivity. Qed.

Lemma entry_of_fallback (d : dict) :
  match carried k_displayname (VDict d) with
  | Some dn => Py.truthy dn = false
  | None => True
  end ->
  entry_of (VDict d) = Py.dict_get d k_state_key (VStr []).
Proof.
  unfold entry_of.
  destruct (carried k_displayname (VDict d)) as [dn|];
    [intros ->|]; reflexivity.
Qed.

(** C6 (as amended).  For a room whose identifier has no lone surrogate
    the member resolver never raises.  For a response with status 200
    whose chunk is a list of membership records it returns one entry per
    record in the order of the chunk, each entry being the record's display
    name when that is present and truthy (not null, false, zero or empty)
    and the record's state key otherwise.  When the transport fails, the
    status is not 200 or the body cannot be parsed it returns the empty
    list.  Without a token it returns the empty list and sends nothing,
    whatever the identifier. *)
Theorem C6_member_resolver (server : homeserver) (room_id : pystr)
  (w : world) :
  (Py.truthy (access_token (self w)) = false ->
   get_room_members server room_id w = (Ok [], w)) /\
  (encodable room_id = true ->
   exists members w',
     get_room_members server room_id w = (Ok members, w') /\
     (Py.truthy (access_token (self w)) = true ->
      forall d chunk,
        server (sent w) (members_request room_id (self w)) =
          Response 200 (Some (VDict d)) ->
        Py.dict_get d k_chunk (VList []) = VList chunk ->
        forallb record_with_content chunk = true ->
        members = map entry_of chunk /\ length members = length chunk) /\
     (Py.truthy (access_token (self w)) = false ->
      members = [] /\ w' = w) /\
     (server (sent w) (members_request room_id (self w)) = Unreachable ->
      members = []) /\
     (forall status body,
         server (sent w) (members_request room_id (self w)) =
           Response status body ->
         status <> 200%Z \/ body = None ->
         members = [])).
Proof.
  split.
  { intros T. unfold get_room_members, bind, get_self. rewrite T.
    reflexivity. }
  intros Q.
  destruct (get_room_members_spec server room_id w Q)
    as (members & w' & R & F & T).
  exists members, w'. split; [exact R|].
  destruct (Py.truthy (access_token (self w))) eqn:Tok.
  - destruct (T eq_refl) as [_ M]. clear T F.
    split; [|split; [discriminate|split]].
    + intros _ d chunk Sv C Rec. rewrite Sv in M; simpl in M.
      rewrite (roster_records d chunk C Rec) in M. subst members.
      rewrite length_map. auto.
    + intros Sv. rewrite Sv in M. exact M.
    + intros status body Sv [Hs | ->]; rewrite Sv in M.
      * apply Z.eqb_neq in Hs. rewrite Hs in M. exact M.
      * destruct (status =? 200)%Z; exact M.
  - destruct (F eq_refl) as [-> ->].
    split; [discriminate|]. repeat split; auto.
Qed.

(** ** The session *)

(** C7.  In a world whose manager holds no access token ([None], or any
    falsy value), [sync] returns [None] and leaves the world as it was: the
    request log is unchanged, no session is created, no request is sent. *)
Theorem C7_sync_unauthenticated (server : homeserver) (timeout : Z)
  (w : world) :
  Py.truthy (access_token (self w)) = false ->
  sync server timeout w = (Ok VNone, w) /\
  sent (snd (sync server timeout w)) = sent w.
Proof.
  intros T. unfold sync, bind, get_self. rewrite T. simpl. auto.
Qed.

(** With a token, [logout] sends one request and, whatever the server
    answers, clears the token state and closes the session. *)
Lemma logout_with_token (server : homeserver) (w : world) :
  Py.truthy (access_token (self w)) = true ->
  logout server w =
  (Ok tt, {| self := logged_out;
             sent := sent w ++ [logout_request (self w)] |}).
Proof.
  destruct w as [[tok uid did s] log]. simpl. intros T.
  cbv beta iota zeta delta
    [logout bind get_self try_except try_finally _get_session _close_session
     send set_self lift ret _get_headers negb logout_request logged_out
     self sent session access_token clear_token set_session].
  rewrite T.
  destruct s as [|[|]]; cbv beta iota; rewrite ?T;
    match goal with
    | |- context [server log ?r] => destruct (server log r)
    end; reflexivity.
Qed.

(** Without a token, [logout] returns at once and changes nothing. *)
Lemma logout_without_token (server : homeserver) (w : world) :
  Py.truthy (access_token (self w)) = false ->
  logout server w = (Ok tt, w).
Proof.
  intros T. unfold logout, bind, get_self. rewrite T. reflexivity.
Qed.

Lemma logout_never_raises (server : homeserver) (w : world) :
  fst (logout server w) = Ok tt.
Proof.
  destruct (Py.truthy (access_token (self w))) eqn:T.
  - rewrite logout_with_token by assumption. reflexivity.
  - rewrite logout_without_token by assumption. reflexivity.
Qed.

(** A second [logout] changes nothing, whatever the servers answer. *)
Lemma logout_idempotent (server server' : homeserver) (w : world) :
  snd (logout server' (snd (logout server w))) = snd (logout server w).
Proof.
  destruct (Py.truthy (access_token (self w))) eqn:T.
  - rewrite (logout_with_token server w T). cbn [snd].
    rewrite logout_without_token; reflexivity.
  - rewrite (logout_without_token server w T). cbn [snd].
    rewrite logout_without_token; auto.
Qed.

(** A login the server rejects leaves an open session and no token. *)
Lemma login_rejected :
  login hostile (lit "user") (lit "pw") fresh = (Ok false, after_failed_login).
Proof. reflexivity. Qed.

(** C8 (the code at the failing input).  After a rejected login the
    manager holds no token and an open session; [logout] then returns at
    its token guard and leaves the session open. *)
Theorem C8_logout_leaves_session_open :
  login hostile (lit "user") (lit "pw") fresh =
    (Ok false, after_failed_login) /\
  session (self after_failed_login) = Session false /\
  logout hostile after_failed_login = (Ok tt, after_failed_login) /\
  session (self (snd (logout hostile after_failed_login))) = Session false.
Proof. repeat split. Qed.

(** ** The loop over the joined rooms *)

(** One iteration is the projection applied to the roster the resolver
    returns. *)
Lemma room_entry_project (server : homeserver) (room_id : pystr)
  (room_data : value) (w w' : world) (members : list value) :
  get_room_members server room_id w = (Ok members, w') ->
  room_entry server room_id room_data w =
  match project room_id room_data members with
  | Ok info => (Ok info, w')
  | Raise => (Raise, w)
  end.
Proof.
  intros G. unfold room_entry, project, bind, lift, ret.
  destruct (room_state room_data); simpl; [|reflexivity].
  destruct (room_last_message room_data); simpl; [|reflexivity].
  rewrite G. reflexivity.
Qed.

(** The chats of the sample server: one room, summarised. *)
Example get_user_chats_friendly :
  fst (get_user_chats friendly logged_in) =
  Ok [ {| info_room_id := room_a;
          info_name := text "Ops-2";
          info_canonical_alias := VStr no_alias;
          info_member_count := 3;
          info_is_encrypted := false;
          info_topic := text "Infra";
          info_last_message := VStr (repeat 97%N 100 ++ dots);
          info_members := [text "Alice"; text "@bob:example.org";
                           text "@carol:example.org"] |} ].
Proof. vm_compute. reflexivity. Qed.

(** ** The sample rooms *)

Lemma project_ops_room :
  project room_a ops_room two_members = Ok ops_summary.
Proof. reflexivity. Qed.

Lemma project_redacted_room :
  project room_a redacted_room [] = Ok redacted_summary.
Proof. reflexivity. Qed.

(** C1 as stated fails on the redacted room: its last naming event carries
    no name, and the summary's name is neither a value of that event nor
    the default, but the name an earlier event carried. *)
Lemma C1_counterexample :
  project room_a redacted_room [] = Ok redacted_summary /\
  last_where (has_type m_room_name) (state_log redacted_room)
    = Some keyless_name /\
  carried k_name keyless_name <> Some (info_name redacted_summary) /\
  info_name redacted_summary <> VStr no_name /\
  info_name redacted_summary = text "A".
Proof.
  split; [reflexivity|]. split; [reflexivity|].
  split; [vm_compute; discriminate|].
  split; [vm_compute; discriminate | reflexivity].
Qed.

(** C3 as stated fails on the redacted room: the message-type event closest
    to the end of its timeline has no body, and the last message is neither
    a body of that event nor the default, but the body of an older
    message. *)
Lemma C3_counterexample :
  project room_a redacted_room [] = Ok redacted_summary /\
  last_where (has_type m_room_message) (timeline_log redacted_room)
    = Some bodyless_message /\
  carried k_body bodyless_message <> Some (info_last_message redacted_summary) /\
  info_last_message redacted_summary <> VStr no_messages /\
  info_last_message redacted_summary = text "hi".
Proof.
  split; [reflexivity|]. split; [reflexivity|].
  split; [vm_compute; discriminate|].
  split; [vm_compute; discriminate | reflexivity].
Qed.

(** C6 as stated fails on a record whose display name is present and
    empty: the entry is the record's state key, not its display name. *)
Lemma C6_counterexample :
  carried k_displayname bob = Some (VStr []) /\
  friendly (sent logged_in) (members_request room_a (self logged_in))
    = Response 200 (Some (VDict [(k_chunk, VList [alice; bob; carol])])) /\
  fst (get_room_members friendly room_a logged_in)
    = Ok [text "Alice"; text "@bob:example.org"; text "@carol:example.org"] /\
  text "@bob:example.org" <> VStr [].
Proof.
  split; [reflexivity|]. split; [reflexivity|]. split; [reflexivity|].
  vm_compute; discriminate.
Qed.

(** C1 on the Ops room: the second naming event wins. *)
Lemma C1_witness :
  project room_a ops_room two_members = Ok ops_summary /\
  carried k_name (event m_room_name [(k_name, text "Ops-2")])
    = Some (info_name ops_summary).
Proof.
  split; [reflexivity|].
  exact (proj1 (C1_last_written_value FName room_a ops_room two_members
                  ops_summary eq_refl)).
Defined.

(** C2 on the redacted room, whose encryption event is followed by others. *)
Lemma C2_witness :
  project room_a redacted_room [] = Ok redacted_summary /\
  (info_is_encrypted redacted_summary = true <->
   exists e, In e (state_log redacted_room) /\
             has_type m_room_encryption e = true).
Proof.
  split; [reflexivity|].
  exact (proj1 (C2_encrypted_iff_seen room_a redacted_room []
                  redacted_summary eq_refl)).
Defined.

(** C3 on the Ops room: the most recent message is the long one. *)
Lemma C3_witness :
  project room_a ops_room two_members = Ok ops_summary /\
  exists body,
    carried k_body long_message = Some body /\
    truncate body = Ok (info_last_message ops_summary).
Proof.
  split; [reflexivity|].
  exact (proj1 (C3_last_message room_a ops_room two_members ops_summary
                  eq_refl)).
Defined.

(** C4 on a body of 120 characters and on a body of 2. *)
Lemma C4_witness :
  (project room_a ops_room two_members = Ok ops_summary /\
   timeline_log ops_room = [hi_message] ++ long_message :: [] /\
   100 < length long_body /\
   info_last_message ops_summary = VStr (firstn 100 long_body ++ dots)) /\
  (project room_a redacted_room [] = Ok redacted_summary /\
   timeline_log redacted_room = [] ++ hi_message :: [bodyless_message] /\
   length (lit "hi") <= 100 /\
   info_last_message redacted_summary = text "hi").
Proof.
  split.
  - assert (L : 100 < length long_body) by (apply Nat.ltb_lt; reflexivity).
    split; [reflexivity|]. split; [reflexivity|]. split; [exact L|].
    exact (proj2 (C4_truncation room_a ops_room two_members ops_summary
                    [hi_message] [] long_message long_body
                    eq_refl eq_refl eq_refl eq_refl eq_refl) L).
  - assert (L : length (lit "hi") <= 100) by (apply Nat.leb_le; reflexivity).
    split; [reflexivity|]. split; [reflexivity|]. split; [exact L|].
    exact (proj1 (C4_truncation room_a redacted_room [] redacted_summary
                    [] [bodyless_message] hi_message (lit "hi")
                    eq_refl eq_refl eq_refl eq_refl eq_refl) L).
Defined.

(** C5 with a roster of two against three membership events, and with an
    empty roster. *)
Lemma C5_witness :
  (project room_a ops_room two_members = Ok ops_summary /\
   two_members <> [] /\
   info_member_count ops_summary = length two_members /\
   info_members ops_summary = firstn 10 two_members /\
   length (filter (has_type m_room_member) (state_log ops_room)) = 3) /\
  (project room_a redacted_room [] = Ok redacted_summary /\
   info_member_count redacted_summary =
     length (filter (has_type m_room_member) (state_log redacted_room)) /\
   info_members redacted_summary = []).
Proof.
  split.
  - assert (N : two_members <> []) by discriminate.
    split; [reflexivity|]. split; [exact N|].
    destruct (proj1 (C5_member_roster room_a ops_room two_members
                       ops_summary eq_refl) N) as [C M].
    split; [exact C|]. split; [exact M | reflexivity].
  - split; [reflexivity|].
    exact (proj2 (C5_member_roster room_a redacted_room []
                    redacted_summary eq_refl) eq_refl).
Defined.

(** C6 on the sample membership response. *)
Lemma C6_witness :
  exists members w',
    encodable room_a = true /\
    Py.truthy (access_token (self logged_in)) = true /\
    get_room_members friendly room_a logged_in = (Ok members, w') /\
    members = map entry_of [alice; bob; carol] /\
    length members = 3.
Proof.
  destruct (proj2 (C6_member_resolver friendly room_a logged_in) eq_refl)
    as (members & w' & R & T & _).
  exists members, w'. split; [reflexivity|].
  split; [reflexivity|]. split; [exact R|].
  exact (T eq_refl [(k_chunk, VList [alice; bob; carol])]
           [alice; bob; carol] eq_refl eq_refl eq_refl).
Defined.

(** C7 in the world of a manager that never logged in. *)
Lemma C7_witness :
  Py.truthy (access_token (self fresh)) = false /\
  sync friendly 30000 fresh = (Ok VNone, fresh) /\
  sent (snd (sync friendly 30000 fresh)) = sent fresh.
Proof.
  split; [reflexivity|].
  exact (C7_sync_unauthenticated friendly 30000 fresh eq_refl).
Defined.

(** C9 on the redacted room, whose last naming event has no name. *)
Lemma C9_witness :
  project room_a redacted_room [] = Ok redacted_summary /\
  state_log redacted_room =
    [event m_room_name [(k_name, text "A")]; event m_room_encryption []]
    ++ keyless_name :: [event m_room_member []] /\
  has_type m_room_name keyless_name = true /\
  carried k_name keyless_name = None /\
  (forall acc acc', state_step acc keyless_name = Ok acc' -> acc' = acc) /\
  carried k_name (event m_room_name [(k_name, text "A")])
    = Some (info_name redacted_summary).
Proof.
  repeat (split; [reflexivity|]).
  destruct (C9_keyless_event_ignored FName room_a redacted_room []
              redacted_summary
              [event m_room_name [(k_name, text "A")];
               event m_room_encryption []]
              [event m_room_member []] keyless_name
              eq_refl eq_refl eq_refl eq_refl) as (K & _ & F).
  split; [exact K | exact F].
Defined.

(** C10 on the redacted room, whose last message has no body. *)
Lemma C10_witness :
  project room_a redacted_room [] = Ok redacted_summary /\
  timeline_log redacted_room = [hi_message] ++ [bodyless_message] /\
  forallb (fun x => negb (message_with_body x)) [bodyless_message] = true /\
  truncate (text "hi") = Ok (info_last_message redacted_summary).
Proof.
  repeat (split; [reflexivity|]).
  destruct (C10_bodyless_message_skipped room_a redacted_room []
              redacted_summary [hi_message] [bodyless_message]
              eq_refl eq_refl eq_refl) as (_ & B & _).
  exact (B [] hi_message (text "hi") eq_refl eq_refl eq_refl).
Defined.

(** * Further properties of the manager *)

(** ** What keeps the token state *)

Lemma keeps_ret {A} (a : A) : keeps_identity (ret a).
Proof. intros w; reflexivity. Qed.

Lemma keeps_raise {A} : keeps_identity (@raise A).
Proof. intros w; reflexivity. Qed.

Lemma keeps_lift {A} (r : res A) : keeps_identity (lift r).
Proof. intros w; reflexivity. Qed.

Lemma keeps_get_self : keeps_identity get_self.
Proof. intros w; reflexivity. Qed.

Lemma keeps_bind {A B} (m : io A) (k : A -> io B) :
  keeps_identity m -> (forall a, keeps_identity (k a)) ->
  keeps_identity (bind m k).
Proof.
  intros Hm Hk w. unfold bind. specialize (Hm w).
  destruct (m w) as [[a|] w1]; simpl in *; [|exact Hm].
  rewrite (Hk a w1). exact Hm.
Qed.

Lemma keeps_try_except {A} (m handler : io A) :
  keeps_identity m -> keeps_identity handler ->
  keeps_identity (try_except m handler).
Proof.
  intros Hm Hh w. unfold try_except. specialize (Hm w).
  destruct (m w) as [[a|] w1]; simpl in *; [exact Hm|].
  rewrite (Hh w1). exact Hm.
Qed.

Lemma keeps_set_session (s : http_session) :
  keeps_identity (set_self (set_session s)).
Proof. intros w; reflexivity. Qed.

Lemma keeps_get_session : keeps_identity _get_session.
Proof.
  intros [[tok uid did s] log]. unfold _get_session, bind, get_self; simpl.
  destruct s as [|[|]]; reflexivity.
Qed.

Lemma keeps_send (server : homeserver) (e : endpoint) :
  keeps_identity (send server e).
Proof.
  intros w. unfold send. destruct (server (sent w) _); reflexivity.
Qed.

Lemma keeps_if {A} (b : bool) (m1 m2 : io A) :
  keeps_identity m1 -> keeps_identity m2 ->
  keeps_identity (if b then m1 else m2).
Proof. destruct b; auto. Qed.

Create HintDb keeps.
#[local] Hint Resolve keeps_ret keeps_raise keeps_lift keeps_get_self
  keeps_get_session keeps_send keeps_set_session : keeps.

Ltac keeps :=
  repeat first
    [ solve [auto with keeps]
    | apply keeps_bind; [|intros ?]
    | apply keeps_try_except
    | apply keeps_if
    | match goal with
      | |- keeps_identity (match ?x with _ => _ end) => destruct x
      end ].

Lemma keeps_sync (server : homeserver) (timeout : Z) :
  keeps_identity (sync server timeout).
Proof. unfold sync. keeps. Qed.

Lemma keeps_get_room_members (server : homeserver) (room_id : pystr) :
  keeps_identity (get_room_members server room_id).
Proof. unfold get_room_members. keeps. Qed.

Lemma keeps_room_entry (server : homeserver) (room_id : pystr)
  (room_data : value) :
  keeps_identity (room_entry server room_id room_data).
Proof.
  unfold room_entry. pose proof (keeps_get_room_members server room_id).
  keeps; auto.
Qed.

Lemma keeps_each_room (server : homeserver)
  (joined_rooms : list (pystr * value)) :
  forall rooms, keeps_identity (each_room server rooms joined_rooms).
Proof.
  induction joined_rooms as [|[room_id room_data] rest IH]; intros rooms;
    simpl.
  - apply keeps_ret.
  - apply keeps_bind; [apply keeps_room_entry | intros info; apply IH].
Qed.

Lemma keeps_get_user_chats_body (server : homeserver) :
  keeps_identity (get_user_chats server).
Proof.
  unfold get_user_chats.
  pose proof (keeps_sync server 30000).
  pose proof (keeps_each_room server).
  keeps; auto.
Qed.

(** ** [login] *)

(** A login the server accepts with a record: the three fields are stored,
    and the result tells whether the success message could be printed. *)
Lemma login_accepted (server : homeserver) (username password : pystr)
  (w : world) (d : dict) :
  server (sent w) (login_request username password (self w))
    = Response 200 (Some (VDict d)) ->
  login server username password w =
  (Ok (printable (Py.dict_get d k_user_id VNone)),
   {| self := {| access_token := Py.dict_get d k_access_token VNone;
                 user_id := Py.dict_get d k_user_id VNone;
                 device_id := Py.dict_get d k_device_id VNone;
                 session := Session false |};
      sent := sent w ++ [login_request username password (self w)] |}).
Proof.
  destruct w as [[tok uid did s] log].
  cbv beta iota zeta delta
    [login bind get_self try_except _get_session send set_self lift ret
     _get_headers login_request self sent session access_token
     set_session printable].
  intros R.
  destruct s as [|[|]]; cbv beta iota; rewrite R; simpl;
    destruct (print_value (Py.dict_get d k_user_id VNone)); reflexivity.
Qed.

(** Any other login. *)
Lemma login_refused (server : homeserver) (username password : pystr)
  (w : world) :
  (forall d, server (sent w) (login_request username password (self w))
             <> Response 200 (Some (VDict d))) ->
  exists w',
    login server username password w = (Ok false, w') /\
    identity (self w') = identity (self w) /\
    session (self w') = Session false /\
    sent w' = sent w ++ [login_request username password (self w)].
Proof.
  destruct w as [[tok uid did s] log].
  cbv beta iota zeta delta
    [login bind get_self try_except _get_session send set_self lift ret
     _get_headers login_request self sent session access_token
     set_session identity user_id device_id].
  intros R.
  destruct s as [|[|]]; cbv beta iota;
    match goal with
    | |- context [server log ?r] =>
        destruct (server log r) as [|status body] eqn:E
    end;
    try (eexists; repeat split; reflexivity);
    (destruct (Z.eqb_spec status 200) as [->|Hs];
     [ destruct body as [[| | | | |d]|];
       try (eexists; repeat split; reflexivity);
       exfalso; exact (R d eq_refl)
     | simpl; apply Z.eqb_neq in Hs; rewrite Hs;
       destruct body as [[| | | | |d]|]; simpl;
       try match goal with
           | |- context [print_value ?v] => destruct (print_value v)
           end;
       eexists; repeat split; reflexivity ]).
Qed.


(** ** [sync] *)

(** What [sync] returns and sends when the manager holds a token. *)
Lemma sync_with_token (server : homeserver) (timeout : Z) (w : world) :
  Py.truthy (access_token (self w)) = true ->
  exists v w',
    sync server timeout w = (Ok v, w') /\
    sent w' = sent w ++ [sync_request timeout (self w)] /\
    identity (self w') = identity (self w) /\
    session (self w') = Session false /\
    v = match server (sent w) (sync_request timeout (self w)) with
        | Response status (Some data) =>
            if (status =? 200)%Z then data else VNone
        | _ => VNone
        end.
Proof.
  destruct w as [[tok uid did s] log]. simpl. intros T.
  cbv beta iota zeta delta
    [sync bind get_self try_except _get_session send set_self lift ret
     _get_headers sync_request self sent session access_token
     set_session identity user_id device_id negb].
  rewrite T.
  destruct s as [|[|]]; cbv beta iota; rewrite ?T;
    match goal with
    | |- context [server log ?r] =>
        destruct (server log r) as [|status body]
    end;
    try (do 2 eexists; repeat split; reflexivity);
    simpl; destruct (status =? 200)%Z;
    destruct body as [[| | | | |d]|]; simpl;
    try match goal with
        | |- context [print_value ?v] => destruct (print_value v)
        end;
    do 2 eexists; repeat split; reflexivity.
Qed.

(** X3.  [sync] never raises and never changes the token state.  With a
    token it sends exactly one request, carrying the timeout, and returns
    the parsed body when the status is 200 and [None] in every other
    case. *)
Theorem sync_outcome (server : homeserver) (timeout : Z) (w : world) :
  exists v w',
    sync server timeout w = (Ok v, w') /\
    identity (self w') = identity (self w) /\
    (Py.truthy (access_token (self w)) = true ->
     sent w' = sent w ++ [sync_request timeout (self w)] /\
     v = match server (sent w) (sync_request timeout (self w)) with
         | Response status (Some data) =>
             if (status =? 200)%Z then data else VNone
         | _ => VNone
         end).
Proof.
  destruct (Py.truthy (access_token (self w))) eqn:T.
  - destruct (sync_with_token server timeout w T)
      as (v & w' & S & L & Id & _ & V).
    exists v, w'. split; [exact S|]. split; [exact Id|].
    intros _. split; [exact L | exact V].
  - exists VNone, w. unfold sync, bind, get_self. rewrite T.
    split; [reflexivity|]. split; [reflexivity | discriminate].
Qed.

(** ** [get_user_chats] *)

Lemma members_request_identity (room_id : pystr) (m m' : manager) :
  identity m = identity m' ->
  members_request room_id m = members_request room_id m'.
Proof.
  unfold identity, members_request. intros H. injection H as -> _ _.
  reflexivity.
Qed.

Lemma truthy_identity (m m' : manager) :
  identity m = identity m' ->
  Py.truthy (access_token m') = Py.truthy (access_token m).
Proof. unfold identity. intros H. injection H as -> _ _. reflexivity. Qed.

(** Whether the projection raises does not depend on the roster. *)
Lemma project_raise_any (room_id : pystr) (room_data : value)
  (members members' : list value) :
  project room_id room_data members = Raise ->
  project room_id room_data members' = Raise.
Proof.
  unfold project.
  destruct (room_state room_data); simpl; [|reflexivity].
  destruct (room_last_message room_data); simpl; [discriminate|reflexivity].
Qed.

Lemma members_requests_identity (rooms : list (pystr * value))
  (m m' : manager) :
  identity m = identity m' ->
  members_requests rooms m = members_requests rooms m'.
Proof.
  intros H. apply map_ext. intros r. apply members_request_identity, H.
Qed.

(** The loop over well-formed rooms: each summary is the projection of its
    room with the roster built from the answer to its membership request,
    sent after those of the rooms before it. *)
Lemma each_room_conformant (server : homeserver)
  (joined_rooms : list (pystr * value)) :
  forall rooms w,
    Py.truthy (access_token (self w)) = true ->
    forallb room_ok joined_rooms = true ->
    exists infos w',
      each_room server rooms joined_rooms w = (Ok (rooms ++ infos), w') /\
      length infos = length joined_rooms /\
      (forall before r after,
          joined_rooms = before ++ r :: after ->
          exists info,
            nth_error infos (length before) = Some info /\
            info_room_id info = fst r /\
            project (fst r) (snd r)
              (roster_of_reply
                 (server (sent w ++ members_requests before (self w))
                    (members_request (fst r) (self w)))) = Ok info) /\
      sent w' = sent w ++ members_requests joined_rooms (self w) /\
      identity (self w') = identity (self w).
Proof.
  induction joined_rooms as [|[room_id room_data] rest IH]; intros rooms w T C.
  - exists [], w. simpl. rewrite !app_nil_r.
    split; [reflexivity|]. split; [reflexivity|].
    split; [|split; reflexivity].
    intros [|b before] r after H; discriminate.
  - simpl in C. apply andb_true_iff in C. destruct C as [Cr Crest].
    apply andb_true_iff in Cr. destruct Cr as [Q Cr]. simpl in Q, Cr.
    destruct (get_room_members_spec server room_id w Q)
      as (members & w1 & G & _ & S).
    destruct (S T) as [S1 M].
    pose proof (keeps_get_room_members server room_id w) as K.
    rewrite G in K; simpl in K.
    destruct (project_total room_id room_data members Cr) as [info P].
    assert (I : info_room_id info = room_id).
    { destruct (project_inv _ _ _ _ P) as (? & ? & _ & _ & ->). reflexivity. }
    assert (T1 : Py.truthy (access_token (self w1)) = true)
      by (rewrite (truthy_identity _ _ (eq_sym K)); exact T).
    destruct (IH (rooms ++ [info]) w1 T1 Crest)
      as (infos & w' & E & Len & F & L & Id).
    exists (info :: infos), w'. simpl.
    unfold bind at 1.
    rewrite (room_entry_project server room_id room_data w w1 members G), P.
    rewrite E, <- app_assoc. simpl.
    split; [reflexivity|]. split; [congruence|]. split; [|split].
    + intros [|b before] r after H; simpl in H; injection H as <- H.
      * exists info. simpl. rewrite app_nil_r.
        split; [reflexivity|]. split; [exact I|].
        unfold roster_of_reply. rewrite <- M. exact P.
      * destruct (F before r after H) as (info' & N & I' & P').
        exists info'. split; [exact N|]. split; [exact I'|].
        rewrite S1, <- app_assoc in P'. simpl in P'.
        rewrite (members_requests_identity before _ _ K) in P'.
        rewrite (members_request_identity (fst r) _ _ K) in P'.
        exact P'.
    + rewrite L, S1, <- app_assoc. simpl. f_equal. f_equal.
      apply members_requests_identity. exact K.
    + rewrite Id. exact K.
Qed.

(** When an iteration returns, its summary is a projection of the room. *)
Lemma room_entry_ok (server : homeserver) (room_id : pystr)
  (room_data : value) (w w' : world) (info : room_info) :
  room_entry server room_id room_data w = (Ok info, w') ->
  exists members, project room_id room_data members = Ok info.
Proof.
  unfold room_entry, project, bind, lift, ret.
  destruct (room_state room_data) as [acc|]; simpl; [|discriminate].
  destruct (room_last_message room_data) as [lm|]; simpl; [|discriminate].
  destruct (get_room_members server room_id w) as [[members|] w1];
    [|discriminate].
  intros H. injection H as <- _. exists members. reflexivity.
Qed.

(** The loop stops with an exception at a room whose projection raises. *)
Lemma each_room_raises (server : homeserver)
  (joined_rooms : list (pystr * value)) :
  forall rooms w,
    (exists r, In r joined_rooms /\ project (fst r) (snd r) [] = Raise) ->
    fst (each_room server rooms joined_rooms w) = Raise.
Proof.
  induction joined_rooms as [|[room_id room_data] rest IH]; intros rooms w.
  - intros (r & [] & _).
  - intros (r & I & P). simpl. unfold bind at 1.
    destruct (room_entry server room_id room_data w) as [[info|] w1] eqn:E;
      [|reflexivity].
    apply IH. exists r. split; [|exact P].
    destruct I as [<-|I]; [|exact I].
    destruct (room_entry_ok _ _ _ _ _ _ E) as [members Pr].
    simpl in P. rewrite (project_raise_any _ _ [] members P) in Pr.
    discriminate.
Qed.


(** X4.  Without a token [get_user_chats] returns no chats and leaves the
    world as it was: nothing is sent. *)
Theorem get_user_chats_unauthenticated (server : homeserver) (w : world) :
  Py.truthy (access_token (self w)) = false ->
  get_user_chats server w = (Ok [], w).
Proof.
  intros T. unfold get_user_chats, bind, get_self. rewrite T. reflexivity.
Qed.

(** X5.  [get_user_chats] never raises and never changes the token
    state. *)
Theorem get_user_chats_safe (server : homeserver) (w : world) :
  exists chats w',
    get_user_chats server w = (Ok chats, w') /\
    identity (self w') = identity (self w).
Proof.
  pose proof (keeps_get_user_chats_body server w) as K.
  unfold get_user_chats, bind, get_self, try_except in *.
  destruct (negb (Py.truthy (access_token (self w)))).
  - do 2 eexists; split; [reflexivity | exact K].
  - match goal with
    | |- context [match ?x with _ => _ end] => destruct x as [[chats|] w1]
    end; do 2 eexists; split; try reflexivity; exact K.
Qed.

Lemma joined_rooms_of_get (payload : value) (rooms : list (pystr * value)) :
  joined_rooms_of payload = Some rooms ->
  (Py.truthy payload = false -> rooms = []) /\
  (r <- (rs <- Py.get payload k_rooms (VDict []) ;;
         Py.get rs k_join (VDict [])) ;;
   Py.items r) = Ok rooms.
Proof.
  destruct payload as [| | | | |d]; try discriminate. simpl.
  destruct d as [|kv d].
  - intros H; injection H as <-. auto.
  - destruct (Py.dict_get (kv :: d) k_rooms (VDict [])) as [| | | | |r];
      try discriminate; simpl.
    destruct (Py.dict_get r k_join (VDict [])) as [| | | | |j];
      try discriminate; simpl.
    intros H; injection H as <-. split; [discriminate | reflexivity].
Qed.

(** X6.  When the sync answers 200 with a payload whose joined rooms all
    follow the protocol and have identifiers without lone surrogates,
    [get_user_chats] returns one summary per joined room, in the order of
    the payload: the summary of a room is its projection with the roster
    built from the server's answer to its membership request.  The
    requests sent are the sync request and then one membership request per
    room, in the same order. *)
Theorem get_user_chats_rooms (server : homeserver) (w : world)
  (payload : value) (rooms : list (pystr * value)) :
  Py.truthy (access_token (self w)) = true ->
  server (sent w) (sync_request 30000 (self w))
    = Response 200 (Some payload) ->
  joined_rooms_of payload = Some rooms ->
  forallb room_ok rooms = true ->
  exists chats w',
    get_user_chats server w = (Ok chats, w') /\
    length chats = length rooms /\
    (forall before r after,
        rooms = before ++ r :: after ->
        exists info,
          nth_error chats (length before) = Some info /\
          info_room_id info = fst r /\
          project (fst r) (snd r)
            (roster_of_reply
               (server (sent w ++ sync_request 30000 (self w)
                               :: members_requests before (self w))
                  (members_request (fst r) (self w)))) = Ok info) /\
    sent w' =
      sent w ++ sync_request 30000 (self w)
             :: members_requests rooms (self w).
Proof.
  intros T R J C.
  destruct (sync_with_token server 30000 w T)
    as (v & w1 & Sy & L1 & Id1 & _ & V).
  rewrite R in V; simpl in V. subst v.
  destruct (joined_rooms_of_get payload rooms J) as [Empty Get].
  unfold get_user_chats, bind at 1, get_self. rewrite T. simpl.
  unfold try_except, bind at 1. rewrite Sy.
  destruct (Py.truthy payload) eqn:Tp; simpl.
  - unfold bind at 1, lift at 1.
    unfold rbind at 1 in Get.
    destruct (rs <- Py.get payload k_rooms (VDict []);;
              Py.get rs k_join (VDict [])) as [j|]; [|discriminate].
    unfold bind at 1, lift at 1. rewrite Get.
    assert (T1 : Py.truthy (access_token (self w1)) = true)
      by (rewrite (truthy_identity _ _ (eq_sym Id1)); exact T).
    destruct (each_room_conformant server rooms [] w1 T1 C)
      as (chats & w' & E & Len & F & L & _).
    rewrite E. exists chats, w'. simpl.
    split; [reflexivity|]. split; [exact Len|]. split.
    + intros before r after H.
      destruct (F before r after H) as (info & N & I & P).
      exists info. split; [exact N|]. split; [exact I|].
      rewrite L1, <- app_assoc in P. simpl in P.
      rewrite (members_requests_identity before _ _ Id1) in P.
      rewrite (members_request_identity (fst r) _ _ Id1) in P.
      exact P.
    + rewrite L, L1, <- app_assoc. simpl. f_equal. f_equal.
      apply members_requests_identity. exact Id1.
  - rewrite (Empty eq_refl). exists [], w1.
    split; [reflexivity|]. split; [reflexivity|]. split.
    + intros [|b before] r after H; discriminate.
    + rewrite L1. reflexivity.
Qed.

(** X7.  When the projection of one joined room raises, [get_user_chats]
    returns no chats at all, also not those of the rooms before it. *)
Theorem get_user_chats_all_or_nothing (server : homeserver) (w : world)
  (payload : value) (rooms : list (pystr * value)) :
  Py.truthy (access_token (self w)) = true ->
  server (sent w) (sync_request 30000 (self w))
    = Response 200 (Some payload) ->
  joined_rooms_of payload = Some rooms ->
  (exists r, In r rooms /\ project (fst r) (snd r) [] = Raise) ->
  fst (get_user_chats server w) = Ok [].
Proof.
  intros T R J B.
  destruct (sync_with_token server 30000 w T)
    as (v & w1 & Sy & _ & _ & _ & V).
  rewrite R in V; simpl in V. subst v.
  destruct (joined_rooms_of_get payload rooms J) as [Empty Get].
  unfold get_user_chats, bind at 1, get_self. rewrite T. simpl.
  unfold try_except, bind at 1. rewrite Sy.
  destruct (Py.truthy payload) eqn:Tp; simpl; [|reflexivity].
  unfold bind at 1, lift at 1.
  unfold rbind at 1 in Get.
  destruct (rs <- Py.get payload k_rooms (VDict []);;
            Py.get rs k_join (VDict [])) as [j|]; [|discriminate].
  unfold bind at 1, lift at 1. rewrite Get.
  pose proof (each_room_raises server rooms [] w1 B) as E.
  destruct (each_room server [] rooms w1) as [[chats|] w2];
    [discriminate | reflexivity].
Qed.


(** X8.  When the sync does not bring a truthy payload (transport error,
    status other than 200, unparsable or empty body), [get_user_chats]
    returns no chats and has sent the sync request only. *)
Theorem get_user_chats_sync_failed (server : homeserver) (w : world) :
  Py.truthy (access_token (self w)) = true ->
  (forall data,
      server (sent w) (sync_request 30000 (self w))
        = Response 200 (Some data) ->
      Py.truthy data = false) ->
  exists w',
    get_user_chats server w = (Ok [], w') /\
    sent w' = sent w ++ [sync_request 30000 (self w)].
Proof.
  intros T F.
  destruct (sync_with_token server 30000 w T)
    as (v & w1 & Sy & L1 & _ & _ & V).
  assert (Tv : Py.truthy v = false).
  { subst v.
    destruct (server (sent w) (sync_request 30000 (self w)))
      as [|status [data|]]; try reflexivity.
    destruct (Z.eqb_spec status 200) as [->|]; [|reflexivity].
    apply F. reflexivity. }
  unfold get_user_chats, bind at 1, get_self. rewrite T. simpl.
  unfold try_except, bind at 1. rewrite Sy, Tv. simpl.
  exists w1. split; [reflexivity | exact L1].
Qed.

(** ** More on the projection *)


(** X10.  A state event whose type is none of the five the fold knows
    changes none of the locals and is no error, whatever its content. *)
Theorem unrecognized_event_ignored (d : dict) (acc : locals) :
  unrecognized (VDict d) = true ->
  state_step acc (VDict d) = Ok acc.
Proof.
  unfold unrecognized, has_type, state_step; simpl.
  rewrite !andb_true_iff, !negb_true_iff.
  intros [[[[-> ->] ->] ->] ->]. reflexivity.
Qed.

(** X11.  When the last timeline event is a message with a body, the
    events before it are never looked at: whatever they are, even if they
    are not records, the last message is that body, truncated. *)
Theorem older_events_not_examined (room_data : value)
  (older : list value) (e body : value) :
  events_of room_data k_timeline = Ok (VList (older ++ [e])) ->
  has_type m_room_message e = true ->
  record_with_content e = true ->
  carried k_body e = Some body ->
  room_last_message room_data = truncate body.
Proof.
  intros E T R B. unfold room_last_message, Py.reversed.
  rewrite E. simpl. rewrite rev_app_distr. simpl.
  destruct e as [| | | | |d]; try discriminate.
  unfold has_type, carried in *. simpl in *. rewrite T. simpl.
  destruct (Py.dict_get d k_content (VDict [])) as [| | | | |c];
    try discriminate. simpl. rewrite B. reflexivity.
Qed.

(** X12.  The members of a summary are never more than 10, and never more
    than its member count when the roster is not empty. *)
Theorem members_preview_bounded (room_id : pystr) (room_data : value)
  (members : list value) (info : room_info) :
  project room_id room_data members = Ok info ->
  length (info_members info) <= 10 /\
  (members <> [] -> length (info_members info) <= info_member_count info).
Proof.
  intros H. destruct (project_inv _ _ _ _ H) as (acc & lm & _ & _ & ->).
  destruct members as [|m ms].
  - simpl. split; [lia | congruence].
  - assert (L : length (firstn 10 (m :: ms)) <= 10 /\
                length (firstn 10 (m :: ms)) <= length (m :: ms))
      by (rewrite length_firstn; lia).
    exact (conj (proj1 L) (fun _ => proj2 L)).
Qed.

Lemma conformant_timeline (room_data : value) :
  conformant room_data = true ->
  forallb (fun e => record_with_content e && body_is_text e)
    (timeline_log room_data) = true.
Proof.
  unfold conformant, events_list, timeline_log.
  destruct (events_of room_data k_state) as [[| | | |st|]|]; try discriminate.
  destruct (events_of room_data k_timeline) as [[| | | |tl|]|];
    try discriminate.
  rewrite andb_true_iff. intros [_ H]. exact H.
Qed.

Lemma truncated_length (b : pystr) :
  length (if length b <=? 100 then b else firstn 100 b ++ dots) <= 103.
Proof.
  destruct (Nat.leb_spec (length b) 100); [lia|].
  rewrite length_app, length_firstn.
  change (length dots) with 3. lia.
Qed.

(** X13.  For a fragment that follows the protocol the last message is a
    text of at most 103 characters. *)
Theorem last_message_bounded (room_id : pystr) (room_data : value)
  (members : list value) (info : room_info) :
  conformant room_data = true ->
  project room_id room_data members = Ok info ->
  exists s, info_last_message info = VStr s /\ length s <= 103.
Proof.
  intros C H. pose proof (project_last_message _ _ _ _ H) as F.
  destruct (last_where message_with_body (timeline_log room_data))
    as [e|] eqn:W.
  - destruct F as (body & B & Tr).
    destruct (last_where_sound _ _ _ W) as [_ I].
    pose proof (proj1 (forallb_forall _ _) (conformant_timeline _ C) e I)
      as Ok_e.
    apply andb_true_iff in Ok_e. destruct Ok_e as [_ Bt].
    unfold body_is_text in Bt. rewrite B in Bt.
    destruct body as [| | |b| |]; try discriminate.
    rewrite truncate_text in Tr. injection Tr as <-.
    exists (if length b <=? 100 then b else firstn 100 b ++ dots).
    split; [reflexivity | apply truncated_length].
  - rewrite F. eexists; split; [reflexivity|]. simpl. lia.
Qed.

(** X14.  A fragment that follows the protocol always yields a summary,
    for every roster, and the summary carries the room identifier. *)
Theorem conformant_room_projects (room_id : pystr) (room_data : value)
  (members : list value) :
  conformant room_data = true ->
  exists info,
    project room_id room_data members = Ok info /\
    info_room_id info = room_id.
Proof.
  intros C. destruct (project_total room_id room_data members C) as [info P].
  exists info. split; [exact P|].
  destruct (project_inv _ _ _ _ P) as (acc & lm & _ & _ & ->). reflexivity.
Qed.

(** ** The local part sent by [login] *)

Lemma before_colon_no_colon (s : pystr) :
  existsb (N.eqb 58) (before_colon s) = false.
Proof.
  induction s as [|c s IH]; [reflexivity|].
  cbn [before_colon].
  destruct (N.eqb_spec c 58) as [->|Hc]; [reflexivity|].
  cbn [existsb]. rewrite IH, orb_false_r.
  apply N.eqb_neq. congruence.
Qed.

Lemma lstrip_at_suffix (s : pystr) :
  exists n, s = repeat 64%N n ++ lstrip_at s /\
            hd_error (lstrip_at s) <> Some 64%N.
Proof.
  induction s as [|c s (n & E & H)]; simpl.
  - exists 0. split; [reflexivity | discriminate].
  - destruct (N.eqb_spec c 64) as [->|Hc].
    + exists (S n). simpl. split; [congruence | exact H].
    + exists 0. simpl. split; [reflexivity|]. congruence.
Qed.

Lemma before_colon_prefix (s : pystr) :
  existsb (N.eqb 58) s = true ->
  exists rest, s = before_colon s ++ 58%N :: rest.
Proof.
  induction s as [|c s IH]; [discriminate|].
  cbn [existsb before_colon].
  destruct (N.eqb_spec c 58) as [->|Hc].
  - intros _. exists s. reflexivity.
  - rewrite (proj2 (N.eqb_neq 58 c)) by congruence.
    intros H. destruct (IH H) as [rest E]. exists rest.
    cbn [app]. congruence.
Qed.

(** X2.  The user name [login] submits never contains a colon; for a name
    with a colon it is the text before the first colon without its leading
    at-signs, and a name without a colon is submitted as it is, a leading
    at-sign included. *)
Theorem login_user_local_part (username : pystr) :
  existsb (N.eqb 58) (login_user username) = false /\
  (existsb (N.eqb 58) username = true ->
   exists n rest,
     username = repeat 64%N n ++ login_user username ++ 58%N :: rest /\
     hd_error (login_user username) <> Some 64%N) /\
  (existsb (N.eqb 58) username = false -> login_user username = username).
Proof.
  unfold login_user.
  destruct (existsb (N.eqb 58) username) eqn:E.
  - destruct (lstrip_at_suffix (before_colon username)) as (n & S & H).
    destruct (before_colon_prefix username E) as (rest & P).
    split; [|split; [|discriminate]].
    + pose proof (before_colon_no_colon username) as N.
      rewrite S, existsb_app in N. apply orb_false_iff in N. tauto.
    + intros _. exists n, rest. split; [|exact H].
      rewrite app_assoc, <- S. exact P.
  - split; [exact E|]. split; [discriminate | reflexivity].
Qed.

(** ** [login], [main] and [logout] together *)

Lemma try_finally_snd {A} (m : io A) (fin : io unit) (w : world) :
  snd (try_finally m fin w) = snd (fin (snd (m w))).
Proof.
  unfold try_finally. destruct (m w) as [r w1]; simpl.
  destruct (fin w1) as [[u|] w2]; reflexivity.
Qed.

(** X15.  [logout] never raises, and afterwards the manager holds no usable
    token.  When it held one before, exactly one request was sent, carrying
    that token, and token, user id and device id are cleared and the
    session is closed, whatever the server answered. *)
Theorem logout_outcome (server : homeserver) (w : world) :
  exists w',
    logout server w = (Ok tt, w') /\
    Py.truthy (access_token (self w')) = false /\
    (Py.truthy (access_token (self w)) = true ->
     self w' = logged_out /\
     sent w' = sent w ++ [logout_request (self w)]).
Proof.
  destruct (Py.truthy (access_token (self w))) eqn:T.
  - rewrite (logout_with_token server w T). eexists.
    split; [reflexivity|]. split; [reflexivity|]. intros _. split; reflexivity.
  - rewrite (logout_without_token server w T). exists w.
    split; [reflexivity|]. split; [exact T | discriminate].
Qed.

(** X16.  A second [logout] returns at once: it changes nothing and sends
    nothing, whatever the first one met. *)
Theorem logout_twice (server server' : homeserver) (w : world) :
  logout server' (snd (logout server w)) = (Ok tt, snd (logout server w)).
Proof.
  apply logout_without_token.
  destruct (Py.truthy (access_token (self w))) eqn:T.
  - rewrite (logout_with_token server w T). reflexivity.
  - rewrite (logout_without_token server w T). exact T.
Qed.

(** X17.  A logout after an accepted login that brought a truthy token
    sends that token in its one request and leaves the manager without
    token, user id and device id and with a closed session, whatever the
    server answers. *)
Theorem login_then_logout (server server' : homeserver)
  (username password : pystr) (w : world) (d : dict) :
  server (sent w) (login_request username password (self w))
    = Response 200 (Some (VDict d)) ->
  Py.truthy (Py.dict_get d k_access_token VNone) = true ->
  logout server' (snd (login server username password w)) =
  (Ok tt,
   {| self := logged_out;
      sent := sent w ++
              [login_request username password (self w);
               {| target := Logout;
                  authorization :=
                    Some (Py.dict_get d k_access_token VNone) |}] |}).
Proof.
  intros R T. rewrite (login_accepted server username password w d R).
  cbn [snd]. rewrite logout_with_token by exact T.
  cbn [self sent]. rewrite <- app_assoc. reflexivity.
Qed.

(** X18.  After an accepted login that brought a truthy token, [main] ends
    with the token state cleared and the session closed, whatever the
    server answers afterwards and whether or not showing or saving the
    chats raises. *)
Theorem main_logs_out (server : homeserver) (writable : bool)
  (username password : pystr) (w : world) (d : dict) :
  server (sent w) (login_request username password init_manager)
    = Response 200 (Some (VDict d)) ->
  Py.truthy (Py.dict_get d k_access_token VNone) = true ->
  self (snd (main server writable username password w)) = logged_out.
Proof.
  intros R T. unfold main, bind at 1, set_self.
  rewrite try_finally_snd.
  set (w0 := {| self := init_manager; sent := sent w |}).
  unfold bind at 1.
  rewrite (login_accepted server username password w0 d R).
  destruct (printable (Py.dict_get d k_user_id VNone)); cbn [negb].
  - assert (K : keeps_identity (show_and_save server writable)).
    { unfold show_and_save.
      pose proof (keeps_get_user_chats_body server). keeps; auto. }
    match goal with
    | |- context [show_and_save server writable ?w1] => specialize (K w1)
    end.
    set (w2 := snd (show_and_save server writable _)) in *.
    assert (T2 : Py.truthy (access_token (self w2)) = true).
    { unfold identity in K. cbn [self access_token] in K.
      injection K as -> _ _. exact T. }
    rewrite (logout_with_token server w2 T2). reflexivity.
  - unfold ret. cbn [snd].
    rewrite logout_with_token by exact T. reflexivity.
Qed.

(** X19.  After a refused login [main] returns without writing a file and
    has sent nothing but the login request: no sync, no membership
    request, no logout. *)
Theorem main_login_refused (server : homeserver) (writable : bool)
  (username password : pystr) (w : world) :
  (forall d, server (sent w) (login_request username password init_manager)
             <> Response 200 (Some (VDict d))) ->
  exists w',
    main server writable username password w = (Ok None, w') /\
    sent w' = sent w ++ [login_request username password init_manager] /\
    identity (self w') = identity init_manager.
Proof.
  intros R. unfold main, bind at 1, set_self.
  set (w0 := {| self := init_manager; sent := sent w |}).
  destruct (login_refused server username password w0 R)
    as (w1 & L & Id & _ & S).
  exists w1. unfold try_finally, bind at 1. rewrite L. cbn [negb].
  assert (T : Py.truthy (access_token (self w1)) = false).
  { unfold identity in Id. cbn [self access_token] in Id.
    injection Id as -> _ _. reflexivity. }
  unfold ret at 1. rewrite (logout_without_token server w1 T).
  split; [reflexivity|]. split; [exact S | exact Id].
Qed.

(** ** The properties above on the sample data *)


(** The resolver on a room identifier with a lone surrogate. *)
Example get_room_members_room_s :
  fst (get_room_members friendly room_s logged_in) = Raise.
Proof. reflexivity. Qed.


(** X3 at a sync of the logged-in manager. *)
Lemma sync_outcome_witness :
  exists v w',
    sync friendly 30000 logged_in = (Ok v, w') /\
    identity (self w') = identity (self logged_in) /\
    sent w' = [sync_request 30000 (self logged_in)] /\
    v = VDict [(k_rooms, VDict [(k_join, VDict [(room_a, ops_room)])])].
Proof.
  destruct (sync_outcome friendly 30000 logged_in)
    as (v & w' & S & Id & T).
  destruct (T eq_refl) as [L V].
  exists v, w'. auto.
Defined.

Lemma get_user_chats_unauthenticated_witness :
  Py.truthy (access_token (self fresh)) = false /\
  get_user_chats friendly fresh = (Ok [], fresh).
Proof.
  split; [reflexivity|].
  exact (get_user_chats_unauthenticated friendly fresh eq_refl).
Defined.

Lemma get_user_chats_rooms_witness :
  forallb room_ok [(room_a, ops_room)] = true /\
  exists chats w',
    get_user_chats friendly logged_in = (Ok chats, w') /\
    length chats = 1 /\
    (exists info,
        nth_error chats 0 = Some info /\
        info_room_id info = room_a /\
        project room_a ops_room (map entry_of [alice; bob; carol])
          = Ok info) /\
    sent w' =
      [sync_request 30000 (self logged_in);
       members_request room_a (self logged_in)].
Proof.
  split; [reflexivity|].
  destruct (get_user_chats_rooms friendly logged_in
              (VDict [(k_rooms, VDict [(k_join, VDict [(room_a, ops_room)])])])
              [(room_a, ops_room)] eq_refl eq_refl eq_refl eq_refl)
    as (chats & w' & G & Len & F & S).
  exists chats, w'. split; [exact G|]. split; [exact Len|].
  split; [exact (F [] (room_a, ops_room) [] eq_refl) | exact S].
Defined.

Lemma get_user_chats_all_or_nothing_witness :
  project room_b broken_room [] = Raise /\
  project room_a ops_room [] <> Raise /\
  fst (get_user_chats half_broken logged_in) = Ok [].
Proof.
  split; [reflexivity|]. split; [discriminate|].
  apply (get_user_chats_all_or_nothing half_broken logged_in
           (VDict [(k_rooms,
              VDict [(k_join, VDict [(room_a, ops_room);
                                     (room_b, broken_room)])])])
           [(room_a, ops_room); (room_b, broken_room)]
           eq_refl eq_refl eq_refl).
  exists (room_b, broken_room). split; [right; left|]; reflexivity.
Defined.

Lemma get_user_chats_sync_failed_witness :
  Py.truthy (access_token (self logged_in)) = true /\
  exists w',
    get_user_chats hostile logged_in = (Ok [], w') /\
    sent w' = sent logged_in ++ [sync_request 30000 (self logged_in)].
Proof.
  split; [reflexivity|].
  apply (get_user_chats_sync_failed hostile logged_in eq_refl).
  intros data H. discriminate.
Defined.

Lemma unrecognized_event_ignored_witness :
  unrecognized custom_event = true /\
  state_step init_locals custom_event = Ok init_locals.
Proof.
  split; [reflexivity|].
  exact (unrecognized_event_ignored
           [(k_type, text "org.example.custom"); (k_content, VInt 3)]
           init_locals eq_refl).
Defined.

Lemma older_events_not_examined_witness :
  events_of junk_then_hi k_timeline
    = Ok (VList ([VInt 1; VNone] ++ [hi_message])) /\
  room_last_message junk_then_hi = truncate (text "hi").
Proof.
  split; [reflexivity|].
  exact (older_events_not_examined junk_then_hi [VInt 1; VNone] hi_message
           (text "hi") eq_refl eq_refl eq_refl eq_refl).
Defined.

Lemma members_preview_bounded_witness :
  project room_a ops_room two_members = Ok ops_summary /\
  length (info_members ops_summary) <= 10 /\
  (two_members <> [] ->
   length (info_members ops_summary) <= info_member_count ops_summary).
Proof.
  split; [reflexivity|].
  exact (members_preview_bounded room_a ops_room two_members ops_summary
           eq_refl).
Defined.

Lemma last_message_bounded_witness :
  conformant ops_room = true /\
  project room_a ops_room two_members = Ok ops_summary /\
  exists s, info_last_message ops_summary = VStr s /\ length s <= 103.
Proof.
  split; [reflexivity|]. split; [reflexivity|].
  exact (last_message_bounded room_a ops_room two_members ops_summary
           eq_refl eq_refl).
Defined.

Lemma conformant_room_projects_witness :
  conformant redacted_room = true /\
  exists info,
    project room_a redacted_room two_members = Ok info /\
    info_room_id info = room_a.
Proof.
  split; [reflexivity|].
  exact (conformant_room_projects room_a redacted_room two_members eq_refl).
Defined.

Lemma logout_outcome_witness :
  Py.truthy (access_token (self logged_in)) = true /\
  exists w',
    logout unreachable logged_in = (Ok tt, w') /\
    self w' = logged_out /\
    sent w' = [logout_request (self logged_in)].
Proof.
  split; [reflexivity|].
  destruct (logout_outcome unreachable logged_in) as (w' & L & _ & T).
  destruct (T eq_refl) as [S Lg].
  exists w'. auto.
Defined.

Lemma login_then_logout_witness :
  logout unreachable
    (snd (login friendly (lit "@u:example.org") (lit "pw") fresh)) =
  (Ok tt,
   {| self := logged_out;
      sent := [{| target := Login (lit "u") (lit "pw");
                  authorization := None |};
               {| target := Logout;
                  authorization := Some (text "secret") |}] |}).
Proof.
  exact (login_then_logout friendly unreachable (lit "@u:example.org")
           (lit "pw") fresh _ eq_refl eq_refl).
Defined.

Lemma main_logs_out_witness :
  self (snd (main half_broken false (lit "@u:example.org") (lit "pw")
               fresh)) = logged_out.
Proof.
  exact (main_logs_out half_broken false (lit "@u:example.org") (lit "pw")
           fresh
           [(k_access_token, text "secret");
            (k_user_id, text "@u:example.org");
            (k_device_id, text "DEV")] eq_refl eq_refl).
Defined.

Lemma main_login_refused_witness :
  exists w',
    main hostile true (lit "user") (lit "pw") fresh = (Ok None, w') /\
    sent w' = [login_request (lit "user") (lit "pw") init_manager] /\
    identity (self w') = identity init_manager.
Proof.
  apply (main_login_refused hostile true (lit "user") (lit "pw") fresh).
  intros d. discriminate.
Defined.
